(** * aws_dyn_dns: the dynamic DNS updater of [main.py]

    A shallow embedding of the script: the pure IPv4 validator
    [_validate_ip_v4] over Python strings, and the effectful entry point
    (public IP lookup, Route 53 zone and record lookup, upsert) over an
    explicit description of the outside world, with the log lines and the
    outbound calls collected in a trace. *)

From Stdlib Require Import String Ascii DecimalString ZArith NArith List Bool Lia.
Import ListNotations.

Local Open Scope N_scope.

(** ** Python strings

    A [str] is a sequence of Unicode code points. *)

Definition char : Type := N.
Definition str : Type := list char.

(** An ASCII literal of the script, as a [str]. *)
Definition lit (s : string) : str := map N_of_ascii (list_ascii_of_string s).

Fixpoint str_eqb (a b : str) : bool :=
  match a, b with
  | [], [] => true
  | x :: a', y :: b' => (x =? y) && str_eqb a' b'
  | _, _ => false
  end.

Definition in_range (lo hi c : N) : bool := (lo <=? c) && (c <=? hi).

(** [str.isspace] on one character: the code points with bidirectional type
    WS, B or S, or category Zs. *)
Definition space_ranges : list (N * N) :=
  [ (0x09, 0x0d); (0x1c, 0x20); (0x85, 0x85); (0xa0, 0xa0);
    (0x1680, 0x1680); (0x2000, 0x200a); (0x2028, 0x2029);
    (0x202f, 0x202f); (0x205f, 0x205f); (0x3000, 0x3000) ].

Definition Py_UNICODE_ISSPACE (c : char) : bool :=
  existsb (fun r => in_range (fst r) (snd r) c) space_ranges.

(** The C-locale [isspace] that the integer parser applies to ASCII text. *)
Definition Py_ISSPACE (c : char) : bool :=
  in_range 0x09 0x0d c || (c =? 0x20).

(** First code point of every run of ten decimal digits (category Nd,
    Unicode 14.0); the mathematical digits U+1D7CE..U+1D7FF are five such
    runs in a row. *)
Definition decimal_runs : list N :=
  [ 0x30; 0x660; 0x6f0; 0x7c0; 0x966; 0x9e6; 0xa66; 0xae6; 0xb66; 0xbe6;
    0xc66; 0xce6; 0xd66; 0xde6; 0xe50; 0xed0; 0xf20; 0x1040; 0x1090;
    0x17e0; 0x1810; 0x1946; 0x19d0; 0x1a80; 0x1a90; 0x1b50; 0x1bb0;
    0x1c40; 0x1c50; 0xa620; 0xa8d0; 0xa900; 0xa9d0; 0xa9f0; 0xaa50;
    0xabf0; 0xff10; 0x104a0; 0x10d30; 0x11066; 0x110f0; 0x11136; 0x111d0;
    0x112f0; 0x11450; 0x114d0; 0x11650; 0x116c0; 0x11730; 0x118e0;
    0x11950; 0x11c50; 0x11d50; 0x11da0; 0x16a60; 0x16ac0; 0x16b50;
    0x1d7ce; 0x1d7d8; 0x1d7e2; 0x1d7ec; 0x1d7f6;
    0x1e140; 0x1e2f0; 0x1e950; 0x1fbf0 ].

Fixpoint decimal_in (runs : list N) (c : char) : option N :=
  match runs with
  | [] => None
  | lo :: runs' =>
      if in_range lo (lo + 9) c then Some (c - lo) else decimal_in runs' c
  end.

Definition Py_UNICODE_TODECIMAL (c : char) : option N :=
  decimal_in decimal_runs c.

Definition dot : char := 0x2e.
Definition plus_sign : char := 0x2b.
Definition minus_sign : char := 0x2d.
Definition underscore : char := 0x5f.

(** *** [str.strip()], [str.split(sep)] and [sep.join(parts)] *)

Fixpoint lstrip (s : str) : str :=
  match s with
  | [] => []
  | c :: s' => if Py_UNICODE_ISSPACE c then lstrip s' else s
  end.

Definition rstrip (s : str) : str := rev (lstrip (rev s)).

Definition strip (s : str) : str := rstrip (lstrip s).

(** [s.split(sep)] for a separator of one character: never the empty list,
    and one more piece than there are separators. *)
Fixpoint split (sep : char) (s : str) : list str :=
  match s with
  | [] => [[]]
  | c :: s' =>
      if c =? sep then [] :: split sep s'
      else match split sep s' with
           | piece :: pieces => (c :: piece) :: pieces
           | [] => [[c]]
           end
  end.

Fixpoint join (sep : str) (parts : list str) : str :=
  match parts with
  | [] => []
  | [p] => p
  | p :: parts' => p ++ sep ++ join sep parts'
  end.

(** *** [int(s)] and [str(n)]

    [int] with one argument reads base 10.  Before parsing, a non-ASCII
    character turns into a blank when it is white space, into its ASCII
    digit when it is a decimal digit, and into an invalid character
    otherwise; ASCII is left as it is and judged by [Py_ISSPACE]. *)

Definition int_isspace (c : char) : bool :=
  if c <? 127 then Py_ISSPACE c else Py_UNICODE_ISSPACE c.

Definition int_digit (c : char) : option N :=
  if c <? 127 then (if in_range 0x30 0x39 c then Some (c - 0x30) else None)
  else if Py_UNICODE_ISSPACE c then None
  else Py_UNICODE_TODECIMAL c.

Fixpoint skip_spaces (s : str) : str :=
  match s with
  | [] => []
  | c :: s' => if int_isspace c then skip_spaces s' else s
  end.

(** The digit scan: digits with single underscores between them.  Returns
    the value, the number of digits and the unread rest; [None] on a doubled
    or trailing underscore. *)
Fixpoint scan_digits (s : str) (prev_underscore : bool) (acc : Z) (ndigits : N)
  : option (Z * N * str) :=
  match s with
  | [] => if prev_underscore then None else Some (acc, ndigits, [])
  | c :: s' =>
      if c =? underscore then
        if prev_underscore then None else scan_digits s' true acc ndigits
      else
        match int_digit c with
        | Some d => scan_digits s' false (10 * acc + Z.of_N d)%Z (ndigits + 1)
        | None => if prev_underscore then None else Some (acc, ndigits, s)
        end
  end.

(** The [ValueError] of [int]: a malformed literal, or more digits than the
    interpreter converts ([sys.get_int_max_str_digits()], 4300 unless
    reconfigured). *)
Inductive int_error : Type :=
| InvalidLiteral
| ExceedsDigitLimit (ndigits : N).

Definition int_max_str_digits : N := 4300.

Definition split_sign (s : str) : bool * str :=
  match s with
  | c :: s' =>
      if c =? plus_sign then (false, s')
      else if c =? minus_sign then (true, s')
      else (false, s)
  | [] => (false, s)
  end.

Definition py_int (s : str) : int_error + Z :=
  let (negative, body) := split_sign (skip_spaces s) in
  match body with
  | [] => inl InvalidLiteral
  | c :: _ =>
      if c =? underscore then inl InvalidLiteral
      else
        match scan_digits body false 0%Z 0 with
        | None => inl InvalidLiteral
        | Some (v, n, rest) =>
            if n =? 0 then inl InvalidLiteral
            else if int_max_str_digits <? n then inl (ExceedsDigitLimit n)
            else
              match skip_spaces rest with
              | [] => inr (if negative then (- v)%Z else v)
              | _ :: _ => inl InvalidLiteral
              end
        end
  end.

(** [str(n)] of an integer: its decimal digits, with a minus sign below
    zero. *)
Definition py_str (n : Z) : str := lit (NilZero.string_of_int (Z.to_int n)).

(** ** Exceptions

    The three [ValueError]s that [_validate_ip_v4] raises, each with the
    values its message interpolates. *)

Inductive value_error : Type :=
| BytesCountMismatch (count : nat) (raw_ip_v4 : str)
| InvalidType (raw_byte raw_ip_v4 : str) (cause : int_error)
| ByteOutOfRange (parsed_byte : Z) (raw_ip_v4 : str).

(** How the process ends: with status 0 or with another status. *)
Inductive exit_status : Type := ExitZero | ExitNonZero.

(** What the script can see raised.  [LibraryError] stands for the
    exceptions of the code the script calls ([OSError], [JSONDecodeError],
    [TypeError] of the dataclass constructor, [requests] and [botocore]
    errors), all subclasses of [Exception]; [Interrupt] for the ones that
    are not, each with the status the interpreter ends with when nothing
    handles it: a non-zero one for [KeyboardInterrupt], the exit code for
    [SystemExit], which is 0 for [SystemExit(0)] and [SystemExit()]. *)
Inductive exc : Type :=
| ValueError (e : value_error)
| StopIteration
| HTTPError (status_code : Z)
| LibraryError (name : string)
| Interrupt (name : string) (status : exit_status).

(** [isinstance(e, Exception)] *)
Definition is_Exception (e : exc) : bool :=
  match e with
  | Interrupt _ _ => false
  | _ => true
  end.

(** The status of the process when an exception leaves the script: the
    traceback's non-zero status, or the one a [SystemExit] asks for. *)
Definition uncaught_status (e : exc) : exit_status :=
  match e with
  | Interrupt _ status => status
  | _ => ExitNonZero
  end.

Inductive result (A : Type) : Type :=
| Return (a : A)
| Raise (e : exc).

Arguments Return {A} a.
Arguments Raise {A} e.

(** ** The IPv4 validator *)

(** The [for] loop of [_validate_ip_v4]: the segments left to read and the
    list [parsed_bytes] built so far. *)
Fixpoint parse_bytes (raw_ip_v4 : str) (raw_bytes : list str) (parsed_bytes : list Z)
  : result (list Z) :=
  match raw_bytes with
  | [] => Return parsed_bytes
  | raw_byte :: raw_bytes' =>
      match py_int raw_byte with
      | inl e => Raise (ValueError (InvalidType raw_byte raw_ip_v4 e))
      | inr parsed_byte =>
          if negb ((0 <=? parsed_byte)%Z && (parsed_byte <=? 255)%Z) then
            Raise (ValueError (ByteOutOfRange parsed_byte raw_ip_v4))
          else
            parse_bytes raw_ip_v4 raw_bytes' (parsed_bytes ++ [parsed_byte])
      end
  end.

Definition _validate_ip_v4 (raw_ip_v4 : str) : result str :=
  let raw_bytes := split dot (strip raw_ip_v4) in
  if negb (length raw_bytes =? 4)%nat then
    Raise (ValueError (BytesCountMismatch (length raw_bytes) raw_ip_v4))
  else
    match parse_bytes raw_ip_v4 raw_bytes [] with
    | Raise e => Raise e
    | Return parsed_bytes => Return (join (lit ".") (map py_str parsed_bytes))
    end.

(** The three kinds of failure of the validator. *)
Definition is_segment_count_error (r : result str) : bool :=
  match r with Raise (ValueError (BytesCountMismatch _ _)) => true | _ => false end.

Definition is_non_numeric_error (r : result str) : bool :=
  match r with Raise (ValueError (InvalidType _ _ _)) => true | _ => false end.

Definition is_out_of_range_error (r : result str) : bool :=
  match r with Raise (ValueError (ByteOutOfRange _ _)) => true | _ => false end.

(** ** The outside world and the trace of a run *)

(** [RecordInfo], the dataclass read from [hosted_zone_config.json]. *)
Record RecordInfo : Type := {
  target_hosted_zone_name : str;
  target_record_set_name : str;
  target_record_set_type : str;
  target_record_set_ttl : Z
}.

(** A hosted zone and a record set as Route 53 lists them; the script reads
    ['Id'] and ['Name'] only. *)
Record HostedZone : Type := {
  hz_Id : str;
  hz_Name : str
}.

Record ResourceRecord : Type := { Value : str }.

Record ResourceRecordSet : Type := {
  Name : str;
  Type_ : str;
  TTL : Z;
  ResourceRecords : list ResourceRecord
}.

(** The [ChangeBatch] argument of [change_resource_record_sets]. *)
Record Change : Type := {
  Action : str;
  ResourceRecordSet_ : ResourceRecordSet
}.

Record ChangeBatch : Type := { Changes : list Change }.

(** The response of [requests.get]. *)
Record Response : Type := {
  status_code : Z;
  text : str
}.

(** The Route 53 client: what each of its three operations answers. *)
Record Route53Client : Type := {
  list_hosted_zones_by_name : result (list HostedZone);
  list_resource_record_sets : str -> result (list ResourceRecordSet);
  change_resource_record_sets : str -> ChangeBatch -> result unit
}.

(** All that a run reads from outside: the two configuration files (each
    read and decoded, or the exception of doing so), the answer of the echo
    service, and the client that the session hands out. *)
Record World : Type := {
  hosted_zone_config : result RecordInfo;
  ipify : result Response;
  aws_config_session : result unit;
  route53 : result Route53Client
}.

Inductive level : Type := DEBUG | INFO | CRITICAL.

(** The log lines of the script, by their format string and its values. *)
Inductive message : Type :=
| MsgRunning
| MsgIPv4Is (public_ip : str)
| MsgFoundHostedZones (n : nat)
| MsgTargetHostedZone (hz : HostedZone)
| MsgFoundRecordSets (n : nat)
| MsgTargetRecordSet (r : option ResourceRecordSet)
| MsgUpdated
| MsgUnhandledException (e : exc).

(** What a run does that can be seen from outside, in order. *)
Inductive event : Type :=
| Log (lvl : level) (msg : message)
| OpenConfig (directory filename : str)
| HttpGet (url : str)
| CreateClient (service : str)
| ListHostedZonesByName
| ListResourceRecordSets (HostedZoneId : str)
| ChangeResourceRecordSets (HostedZoneId : str) (batch : ChangeBatch).

Definition trace : Type := list event.

(** *** Computations: a trace and then a value or an exception *)

Definition M (A : Type) : Type := (trace * result A)%type.

Definition ret {A} (a : A) : M A := ([], Return a).

Definition bind {A B} (m : M A) (k : A -> M B) : M B :=
  match m with
  | (t, Raise e) => (t, Raise e)
  | (t, Return a) => let (t', r) := k a in (t ++ t', r)
  end.

(** A pure step that may raise. *)
Definition lift {A} (r : result A) : M A := ([], r).

(** An outbound call: recorded in the trace, then its answer. *)
Definition call {A} (ev : event) (answer : result A) : M A := ([ev], answer).

Definition log (lvl : level) (msg : message) : M unit := ([Log lvl msg], Return tt).

Notation "x <- m ;; k" := (bind m (fun x => k))
  (at level 61, m at next level, right associativity).
Notation "m ;; k" := (bind m (fun _ => k))
  (at level 61, right associativity).

(** [next(it)] and [next(it, None)] on the items an iterator still has. *)
Definition next {A} (it : list A) : result A :=
  match it with
  | x :: _ => Return x
  | [] => Raise StopIteration
  end.

Definition next_or_None {A} (it : list A) : option A :=
  match it with
  | x :: _ => Some x
  | [] => None
  end.

(** ** The functions of the script *)

Definition BASE_CONFIG_PATH : str := lit "./.config".
Definition AWS_CONFIG_FILENAME : str := lit "aws_config.json".
Definition HOSTED_ZONE_CONFIG_FILENAME : str := lit "hosted_zone_config.json".

(** [Response.raise_for_status()]: an [HTTPError] for a 4xx or 5xx status. *)
Definition raise_for_status (response : Response) : result unit :=
  if ((400 <=? status_code response) && (status_code response <? 600))%Z
  then Raise (HTTPError (status_code response))
  else Return tt.

Definition get_public_ip_v4 (w : World) : M str :=
  response <- call (HttpGet (lit "https://api.ipify.org")) (ipify w) ;;
  lift (raise_for_status response) ;;
  let raw_ip := text response in
  validated_ip_v4 <- lift (_validate_ip_v4 raw_ip) ;;
  ret validated_ip_v4.

Definition get_boto3_session (w : World) : M unit :=
  call (OpenConfig BASE_CONFIG_PATH AWS_CONFIG_FILENAME) (aws_config_session w).

(** The [ChangeBatch] literal of [update_route_53_record_set]. *)
Definition upsert_batch (record_set_name record_set_type : str) (record_ttl : Z)
    (record_set_value : str) : ChangeBatch :=
  {| Changes :=
       [ {| Action := lit "UPSERT";
            ResourceRecordSet_ :=
              {| Name := record_set_name;
                 Type_ := record_set_type;
                 TTL := record_ttl;
                 ResourceRecords := [ {| Value := record_set_value |} ] |} |} ] |}.

Definition update_route_53_record_set (router_53_client : Route53Client)
    (hosted_zone_id : str)
    (record_set_name record_set_type : str) (record_ttl : Z)
    (record_set_value : str) : M unit :=
  let batch :=
    upsert_batch record_set_name record_set_type record_ttl record_set_value in
  call (ChangeResourceRecordSets hosted_zone_id batch)
       (change_resource_record_sets router_53_client hosted_zone_id batch).

Definition load_record_info (w : World) : M RecordInfo :=
  call (OpenConfig BASE_CONFIG_PATH HOSTED_ZONE_CONFIG_FILENAME) (hosted_zone_config w).

(** The body of the [try] block. *)
Definition main_body (w : World) : M unit :=
  log INFO MsgRunning ;;
  record_info <- load_record_info w ;;

  public_ip <- get_public_ip_v4 w ;;
  log INFO (MsgIPv4Is public_ip) ;;

  get_boto3_session w ;;
  route_53_client <- call (CreateClient (lit "route53")) (route53 w) ;;

  hosted_zones <- call ListHostedZonesByName (list_hosted_zones_by_name route_53_client) ;;
  log DEBUG (MsgFoundHostedZones (length hosted_zones)) ;;
  target_hosted_zone <-
    lift (next (filter (fun hz => str_eqb (hz_Name hz) (target_hosted_zone_name record_info))
                       hosted_zones)) ;;
  log INFO (MsgTargetHostedZone target_hosted_zone) ;;

  target_hosted_zone_records <-
    call (ListResourceRecordSets (hz_Id target_hosted_zone))
         (list_resource_record_sets route_53_client (hz_Id target_hosted_zone)) ;;
  log DEBUG (MsgFoundRecordSets (length target_hosted_zone_records)) ;;

  let target_record :=
    next_or_None (filter (fun r => str_eqb (Name r) (target_record_set_name record_info))
                         target_hosted_zone_records) in
  log INFO (MsgTargetRecordSet target_record) ;;

  update_route_53_record_set route_53_client (hz_Id target_hosted_zone)
    (target_record_set_name record_info)
    (target_record_set_type record_info)
    (target_record_set_ttl record_info)
    public_ip ;;
  log INFO MsgUpdated.

(** The script: the [try] block and its [except Exception] handler, after
    which nothing is left to run; an exception that the handler does not
    catch leaves the script and decides the status. *)
Definition main (w : World) : trace * exit_status :=
  match main_body w with
  | (t, Return _) => (t, ExitZero)
  | (t, Raise e) =>
      if is_Exception e
      then (t ++ [Log CRITICAL (MsgUnhandledException e)], ExitZero)
      else (t, uncaught_status e)
  end.

(** The stages of a run, in order, and the exception with which one of them
    ends the [try] block: each stage is reached when the ones before it have
    succeeded. *)
Inductive stage_raises (w : World) (e : exc) : Prop :=
| load_record_info_raises :
    hosted_zone_config w = Raise e ->
    stage_raises w e
| get_public_ip_v4_raises record_info :
    hosted_zone_config w = Return record_info ->
    snd (get_public_ip_v4 w) = Raise e ->
    stage_raises w e
| get_boto3_session_raises record_info public_ip :
    hosted_zone_config w = Return record_info ->
    snd (get_public_ip_v4 w) = Return public_ip ->
    aws_config_session w = Raise e ->
    stage_raises w e
| session_client_raises record_info public_ip :
    hosted_zone_config w = Return record_info ->
    snd (get_public_ip_v4 w) = Return public_ip ->
    aws_config_session w = Return tt ->
    route53 w = Raise e ->
    stage_raises w e
| list_hosted_zones_raises record_info public_ip client :
    hosted_zone_config w = Return record_info ->
    snd (get_public_ip_v4 w) = Return public_ip ->
    aws_config_session w = Return tt ->
    route53 w = Return client ->
    list_hosted_zones_by_name client = Raise e ->
    stage_raises w e
| zone_lookup_raises record_info public_ip client zones :
    hosted_zone_config w = Return record_info ->
    snd (get_public_ip_v4 w) = Return public_ip ->
    aws_config_session w = Return tt ->
    route53 w = Return client ->
    list_hosted_zones_by_name client = Return zones ->
    filter (fun hz => str_eqb (hz_Name hz) (target_hosted_zone_name record_info)) zones
    = [] ->
    e = StopIteration ->
    stage_raises w e
| list_record_sets_raises record_info public_ip client zones zone zones' :
    hosted_zone_config w = Return record_info ->
    snd (get_public_ip_v4 w) = Return public_ip ->
    aws_config_session w = Return tt ->
    route53 w = Return client ->
    list_hosted_zones_by_name client = Return zones ->
    filter (fun hz => str_eqb (hz_Name hz) (target_hosted_zone_name record_info)) zones
    = zone :: zones' ->
    list_resource_record_sets client (hz_Id zone) = Raise e ->
    stage_raises w e
| update_record_set_raises record_info public_ip client zones zone zones' records :
    hosted_zone_config w = Return record_info ->
    snd (get_public_ip_v4 w) = Return public_ip ->
    aws_config_session w = Return tt ->
    route53 w = Return client ->
    list_hosted_zones_by_name client = Return zones ->
    filter (fun hz => str_eqb (hz_Name hz) (target_hosted_zone_name record_info)) zones
    = zone :: zones' ->
    list_resource_record_sets client (hz_Id zone) = Return records ->
    change_resource_record_sets client (hz_Id zone)
      (upsert_batch (target_record_set_name record_info)
         (target_record_set_type record_info)
         (target_record_set_ttl record_info) public_ip)
    = Raise e ->
    stage_raises w e.

(** Selections from a trace. *)
Definition is_critical (ev : event) : bool :=
  match ev with Log CRITICAL _ => true | _ => false end.

Definition is_change_call (ev : event) : bool :=
  match ev with ChangeResourceRecordSets _ _ => true | _ => false end.

Definition critical_entries (t : trace) : trace := filter is_critical t.
Definition change_calls (t : trace) : trace := filter is_change_call t.

(** Segments the loop accepts, and the characters [int] can read at all. *)
Definition segment_value (seg : str) : Z :=
  match py_int seg with
  | inr v => v
  | inl _ => 0%Z
  end.

Definition segment_ok (seg : str) : bool :=
  match py_int seg with
  | inr v => ((0 <=? v) && (v <=? 255))%Z
  | inl _ => false
  end.

Definition int_char_ok (c : char) : bool :=
  int_isspace c
  || match int_digit c with Some _ => true | None => false end
  || (c =? plus_sign) || (c =? minus_sign) || (c =? underscore).

Definition no_dot (s : str) : bool := forallb (fun c => negb (c =? dot)) s.

Definition no_space (s : str) : bool :=
  forallb (fun c => negb (Py_UNICODE_ISSPACE c)) s.

Definition all_space (s : str) : bool := forallb Py_UNICODE_ISSPACE s.

(** The values of a byte, [0..255], and the ASCII code points below 127. *)
Definition byte_values : list Z := map Z.of_nat (seq 0 256).
Definition ascii_chars : list char := map N.of_nat (seq 0 127).

(** What [str] of a byte must satisfy to be read back. *)
Definition canonical_byte_ok (v : Z) : bool :=
  match py_int (py_str v) with
  | inr v' => (v' =? v)%Z
  | inl _ => false
  end
  && no_dot (py_str v) && no_space (py_str v).

(** ** Measures of strings and errors *)

(** How often a character occurs in a string. *)
Fixpoint count_char (c : char) (s : str) : nat :=
  match s with
  | [] => 0
  | x :: s' => (if x =? c then 1 else 0) + count_char c s'
  end.

Definition is_ascii_digit (c : char) : bool := in_range 0x30 0x39 c.

(** The characters of a dotted-decimal address. *)
Definition is_address_char (c : char) : bool := is_ascii_digit c || (c =? dot).

(** The input that the message of a validator error quotes
    ([... for {raw_ip_v4}]). *)
Definition value_error_raw (e : value_error) : str :=
  match e with
  | BytesCountMismatch _ raw_ip_v4 => raw_ip_v4
  | InvalidType _ raw_ip_v4 _ => raw_ip_v4
  | ByteOutOfRange _ raw_ip_v4 => raw_ip_v4
  end.

(** What [int] does with a string once the leading white space is skipped:
    sign, digits, trailing white space. *)
Definition read_signed (t : str) : int_error + Z :=
  let (negative, body) := split_sign t in
  match body with
  | [] => inl InvalidLiteral
  | c :: _ =>
      if c =? underscore then inl InvalidLiteral
      else
        match scan_digits body false 0%Z 0 with
        | None => inl InvalidLiteral
        | Some (v, n, rest) =>
            if n =? 0 then inl InvalidLiteral
            else if int_max_str_digits <? n then inl (ExceedsDigitLimit n)
            else
              match skip_spaces rest with
              | [] => inr (if negative then (- v)%Z else v)
              | _ :: _ => inl InvalidLiteral
              end
        end
  end.

(** Where the digit scan may stop: at the end, or in front of a character
    that is neither an underscore nor a digit. *)
Definition scan_stops (w : str) : Prop :=
  match w with
  | [] => True
  | c :: _ => (c =? underscore) = false /\ int_digit c = None
  end.

(** White space as [int] skips it. *)
Definition int_blank (s : str) : bool := forallb int_isspace s.

(** What [str] of a byte looks like. *)
Definition byte_str_shape (v : Z) : bool :=
  forallb is_ascii_digit (py_str v)
  && (1 <=? length (py_str v))%nat && (length (py_str v) <=? 3)%nat.

Definition is_log_event (ev : event) : bool :=
  match ev with Log _ _ => true | _ => false end.

Definition is_list_record_sets_call (ev : event) : bool :=
  match ev with ListResourceRecordSets _ => true | _ => false end.

(** The events of a run that has not come to its upsert: anything but the
    change call and the line that reports the update. *)
Definition before_upsert (ev : event) : bool :=
  match ev with
  | ChangeResourceRecordSets _ _ => false
  | Log INFO MsgUpdated => false
  | _ => true
  end.

Definition list_record_sets_calls (t : trace) : trace :=
  filter is_list_record_sets_call t.

(** ** The record configuration

    What [json.load] returns: the Python value of a JSON document.  A float
    is kept as the text of its literal. *)
#[warnings="-register-all"]
Inductive py_value : Type :=
| PyNone
| PyBool (b : bool)
| PyInt (n : Z)
| PyFloat (literal : str)
| PyStr (s : str)
| PyList (items : list py_value)
| PyDict (items : list (str * py_value)).

(** [d.get(key)] on the items of a dict. *)
Fixpoint dict_get (key : str) (items : list (str * py_value)) : option py_value :=
  match items with
  | [] => None
  | (k, v) :: items' => if str_eqb k key then Some v else dict_get key items'
  end.

(** An instance of the dataclass [RecordInfo] as [__init__] leaves it: the
    annotations are not checked, so a field holds whatever value was
    passed. *)
Record RecordInfoObject : Type := {
  obj_target_hosted_zone_name : py_value;
  obj_target_record_set_name : py_value;
  obj_target_record_set_type : py_value;
  obj_target_record_set_ttl : py_value
}.

Definition RecordInfo_fields : list str :=
  [ lit "target_hosted_zone_name"; lit "target_record_set_name";
    lit "target_record_set_type"; lit "target_record_set_ttl" ].

Definition TypeError : exc := LibraryError "TypeError".

(** [RecordInfo] called with the items of a dict as keyword arguments: a
    keyword that is no field and a missing field without default are
    [TypeError]s; the last two fields default to ['A'] and [300]. *)
Definition RecordInfo_init (kwargs : list (str * py_value)) : result RecordInfoObject :=
  if negb (forallb (fun kv => existsb (str_eqb (fst kv)) RecordInfo_fields) kwargs)
  then Raise TypeError
  else
    match dict_get (lit "target_hosted_zone_name") kwargs,
          dict_get (lit "target_record_set_name") kwargs with
    | Some zone_name, Some record_name =>
        Return {| obj_target_hosted_zone_name := zone_name;
                  obj_target_record_set_name := record_name;
                  obj_target_record_set_type :=
                    match dict_get (lit "target_record_set_type") kwargs with
                    | Some v => v
                    | None => PyStr (lit "A")
                    end;
                  obj_target_record_set_ttl :=
                    match dict_get (lit "target_record_set_ttl") kwargs with
                    | Some v => v
                    | None => PyInt 300
                    end |}
    | _, _ => Raise TypeError
    end.

(** [load_record_info] on the outcome of opening and decoding the file:
    only a mapping can be unpacked into keyword arguments. *)
Definition load_record_info_from (parsed_record_info : result py_value)
  : result RecordInfoObject :=
  match parsed_record_info with
  | Raise e => Raise e
  | Return (PyDict items) => RecordInfo_init items
  | Return _ => Raise TypeError
  end.

(** The typed reading of an instance, when its fields hold values of the
    annotated types. *)
Definition annotated (o : RecordInfoObject) : option RecordInfo :=
  match obj_target_hosted_zone_name o, obj_target_record_set_name o,
        obj_target_record_set_type o, obj_target_record_set_ttl o with
  | PyStr zone_name, PyStr record_name, PyStr record_type, PyInt ttl =>
      Some {| target_hosted_zone_name := zone_name;
              target_record_set_name := record_name;
              target_record_set_type := record_type;
              target_record_set_ttl := ttl |}
  | _, _, _, _ => None
  end.

(** ** Decimal digits outside ASCII

    A non-ASCII decimal digit as its ASCII digit; any other character as it
    is. *)
Definition ascii_digit_of (c : char) : char :=
  if c <? 127 then c
  else match int_digit c with
       | Some d => 0x30 + d
       | None => c
       end.

(** ** The integer literals of the validator's segments

    The digits of a literal: decimal digits, with single underscores allowed
    between two digits. *)
Inductive digit_run : str -> Prop :=
| digit_run_one (c : char) (d : N) :
    int_digit c = Some d -> digit_run [c]
| digit_run_digit (c : char) (d : N) (s : str) :
    int_digit c = Some d -> digit_run s -> digit_run (c :: s)
| digit_run_underscore (c : char) (d : N) (s : str) :
    int_digit c = Some d -> digit_run s -> digit_run (c :: underscore :: s).

Definition is_digit (c : char) : bool :=
  match int_digit c with Some _ => true | None => false end.

Definition digit_count (s : str) : nat := length (filter is_digit s).

Definition sign_prefix (sign : str) : Prop :=
  sign = [] \/ sign = [plus_sign] \/ sign = [minus_sign].

(** A segment in strict decimal but for what [int] lets through: white
    space, at most one sign, a run of digits no longer than the limit, white
    space; nothing else. *)
Definition int_literal (seg : str) : Prop :=
  exists w1 sign body w2,
    seg = w1 ++ sign ++ body ++ w2
    /\ int_blank w1 = true /\ int_blank w2 = true
    /\ sign_prefix sign
    /\ digit_run body
    /\ N.of_nat (digit_count body) <= int_max_str_digits.

(** ** Example runs *)

Definition example_record_info : RecordInfo :=
  {| target_hosted_zone_name := lit "example.org.";
     target_record_set_name := lit "home.example.org.";
     target_record_set_type := lit "A";
     target_record_set_ttl := 300 |}.

Definition example_zone : HostedZone :=
  {| hz_Id := lit "/hostedzone/Z1"; hz_Name := lit "example.org." |}.

Definition other_zone : HostedZone :=
  {| hz_Id := lit "/hostedzone/Z2"; hz_Name := lit "example.com." |}.

Definition other_record : ResourceRecordSet :=
  {| Name := lit "www.example.org."; Type_ := lit "A"; TTL := 60;
     ResourceRecords := [ {| Value := lit "198.51.100.1" |} ] |}.

(** The target record, already holding the address of the example runs. *)
Definition current_record : ResourceRecordSet :=
  {| Name := lit "home.example.org."; Type_ := lit "A"; TTL := 300;
     ResourceRecords := [ {| Value := lit "203.0.113.7" |} ] |}.

Definition example_client (zones : list HostedZone)
    (records : list ResourceRecordSet) (change : result unit) : Route53Client :=
  {| list_hosted_zones_by_name := Return zones;
     list_resource_record_sets := fun _ => Return records;
     change_resource_record_sets := fun _ _ => change |}.

Definition example_world (config : result RecordInfo) (response : result Response)
    (client : Route53Client) : World :=
  {| hosted_zone_config := config;
     ipify := response;
     aws_config_session := Return tt;
     route53 := Return client |}.

Definition ok_response (body : str) : result Response :=
  Return {| status_code := 200; text := body |}.

(** The configuration file is missing. *)
Definition world_without_config : World :=
  example_world (Raise (LibraryError "FileNotFoundError"))
    (ok_response (lit "203.0.113.7"))
    (example_client [example_zone] [] (Return tt)).

(** The echo service answers 503. *)
Definition world_echo_down : World :=
  example_world (Return example_record_info)
    (Return {| status_code := 503; text := lit "" |})
    (example_client [example_zone] [] (Return tt)).

(** Route 53 lists no zone of the configured name. *)
Definition world_without_zone : World :=
  example_world (Return example_record_info)
    (ok_response (lit "203.0.113.7"))
    (example_client [other_zone] [] (Return tt)).

(** The zone is there, the record is not. *)
Definition world_without_record : World :=
  example_world (Return example_record_info)
    (ok_response (lit "203.0.113.7"))
    (example_client [other_zone; example_zone] [other_record] (Return tt)).

(** The zone and the record are there, the record up to date. *)
Definition world_up_to_date : World :=
  example_world (Return example_record_info)
    (ok_response (lit "203.0.113.7"))
    (example_client [example_zone] [other_record; current_record] (Return tt)).

(** The echo service answers with white space around the address. *)
Definition world_padded_answer : World :=
  example_world (Return example_record_info)
    (ok_response ([0x20; 0x09] ++ lit "203.0.113.007" ++ [0x0d; 0x0a]))
    (example_client [example_zone] [] (Return tt)).

(** The request to the echo service is interrupted from the keyboard. *)
Definition world_interrupted : World :=
  example_world (Return example_record_info)
    (Raise (Interrupt "KeyboardInterrupt" ExitNonZero))
    (example_client [example_zone] [] (Return tt)).

(** The request to the echo service ends in [SystemExit(0)]. *)
Definition world_exiting : World :=
  example_world (Return example_record_info)
    (Raise (Interrupt "SystemExit" ExitZero))
    (example_client [example_zone] [] (Return tt)).

(** Two zones of the configured name are listed. *)
Definition second_zone : HostedZone :=
  {| hz_Id := lit "/hostedzone/Z3"; hz_Name := lit "example.org." |}.

Definition world_two_zones : World :=
  example_world (Return example_record_info)
    (ok_response (lit "203.0.113.7"))
    (example_client [other_zone; example_zone; second_zone] [] (Return tt)).

(** The echo service answers with something that is no address. *)
Definition world_bad_answer : World :=
  example_world (Return example_record_info)
    (ok_response (lit "<html>busy</html>"))
    (example_client [example_zone] [] (Return tt)).

(** A configuration document with a misspelt key, and one with the two
    required keys only. *)
Definition config_with_typo : py_value :=
  PyDict [ (lit "target_hosted_zone_name", PyStr (lit "example.org."));
           (lit "target_record_set_tll", PyInt 60);
           (lit "target_record_set_name", PyStr (lit "home.example.org.")) ].

Definition config_minimal : py_value :=
  PyDict [ (lit "target_record_set_name", PyStr (lit "home.example.org."));
           (lit "target_hosted_zone_name", PyStr (lit "example.org.")) ].

Ltac char_ok_cases x :=
  unfold int_char_ok in *;
  destruct (int_isspace x), (int_digit x), (x =? plus_sign),
           (x =? minus_sign), (x =? underscore);
  simpl in *; congruence.

Arguments lit : simpl never.

(** * Properties *)

(** ** Characters *)

Lemma byte_values_complete (v : Z) :
  (0 <= v <= 255)%Z -> In v byte_values.
Proof.
  intros Hv. unfold byte_values.
  replace v with (Z.of_nat (Z.to_nat v)) by lia.
  apply in_map, in_seq. lia.
Qed.

Lemma ascii_chars_complete (c : char) :
  c < 127 -> In c ascii_chars.
Proof.
  intros Hc. unfold ascii_chars.
  replace c with (N.of_nat (N.to_nat c)) by lia.
  apply in_map, in_seq. lia.
Qed.

(** A boolean property checked on every ASCII code point holds of each. *)
Lemma ascii_forall (P : char -> bool) :
  forallb P ascii_chars = true -> forall c, (c <? 127) = true -> P c = true.
Proof.
  intros HP c Hc. rewrite forallb_forall in HP.
  apply HP, ascii_chars_complete. now apply N.ltb_lt.
Qed.

Lemma int_isspace_unicode (c : char) :
  int_isspace c = true -> Py_UNICODE_ISSPACE c = true.
Proof.
  unfold int_isspace. destruct (c <? 127) eqn:Hc; [|trivial].
  intros H.
  pose proof (ascii_forall
    (fun c => implb (Py_ISSPACE c) (Py_UNICODE_ISSPACE c)) eq_refl c Hc) as HP.
  cbv beta in HP. rewrite H in HP. exact HP.
Qed.

Lemma unicode_space_not_digit (c : char) :
  Py_UNICODE_ISSPACE c = true -> int_digit c = None.
Proof.
  intros H. unfold int_digit. destruct (c <? 127) eqn:Hc.
  - pose proof (ascii_forall
      (fun c => implb (Py_UNICODE_ISSPACE c) (negb (in_range 0x30 0x39 c)))
      eq_refl c Hc) as HP.
    cbv beta in HP. rewrite H in HP. simpl in HP.
    now destruct (in_range 48 57 c).
  - now rewrite H.
Qed.

Lemma digit_not_int_space (c : char) (d : N) :
  int_digit c = Some d -> int_isspace c = false.
Proof.
  intros H. destruct (int_isspace c) eqn:Hs; [|reflexivity].
  apply int_isspace_unicode, unicode_space_not_digit in Hs. congruence.
Qed.

Lemma digit_not_special (c : char) (d : N) :
  int_digit c = Some d ->
  (c =? plus_sign) = false /\ (c =? minus_sign) = false
  /\ (c =? underscore) = false /\ (c =? dot) = false.
Proof.
  unfold int_digit. destruct (c <? 127) eqn:Hc.
  - intros H.
    pose proof (ascii_forall
      (fun c => implb (in_range 0x30 0x39 c)
                  (negb ((c =? plus_sign) || (c =? minus_sign)
                         || (c =? underscore) || (c =? dot))))
      eq_refl c Hc) as HP.
    cbv beta in HP. destruct (in_range 48 57 c); [|discriminate].
    simpl in HP. apply negb_true_iff in HP.
    repeat (apply orb_false_iff in HP; destruct HP as [HP ?]). auto.
  - intros _. apply N.ltb_ge in Hc.
    unfold plus_sign, minus_sign, underscore, dot.
    repeat split; apply N.eqb_neq; lia.
Qed.

(** ** [strip], [split] and [join] *)

Lemma lstrip_all_space (s : str) :
  all_space s = true -> lstrip s = [].
Proof.
  induction s as [|c s IH]; simpl; [trivial|].
  intros H. apply andb_prop in H as [Hc Hs]. rewrite Hc. auto.
Qed.

Lemma lstrip_app_space (pre s : str) :
  all_space pre = true -> lstrip (pre ++ s) = lstrip s.
Proof.
  induction pre as [|c pre IH]; simpl; [trivial|].
  intros H. apply andb_prop in H as [Hc Hs]. rewrite Hc. auto.
Qed.

Lemma lstrip_app (s t : str) :
  lstrip s <> [] -> lstrip (s ++ t) = lstrip s ++ t.
Proof.
  induction s as [|c s IH]; simpl; [congruence|].
  destruct (Py_UNICODE_ISSPACE c); auto.
Qed.

Lemma lstrip_empty_all_space (s : str) :
  lstrip s = [] -> all_space s = true.
Proof.
  induction s as [|c s IH]; simpl; [trivial|].
  destruct (Py_UNICODE_ISSPACE c); [auto | discriminate].
Qed.

Lemma all_space_rev (s : str) : all_space (rev s) = all_space s.
Proof.
  unfold all_space. induction s as [|c s IH]; simpl; [trivial|].
  rewrite forallb_app, IH. simpl. rewrite andb_true_r. apply andb_comm.
Qed.

Lemma rstrip_app_space (s post : str) :
  all_space post = true -> rstrip (s ++ post) = rstrip s.
Proof.
  intros H. unfold rstrip. rewrite rev_app_distr, lstrip_app_space; trivial.
  now rewrite all_space_rev.
Qed.

(** White space around a string does not change what [strip] leaves. *)
Lemma strip_surrounded (pre s post : str) :
  all_space pre = true -> all_space post = true ->
  strip (pre ++ s ++ post) = strip s.
Proof.
  intros Hpre Hpost. unfold strip. rewrite lstrip_app_space by trivial.
  destruct (lstrip s) as [|c r] eqn:Hs.
  - apply lstrip_empty_all_space in Hs.
    rewrite lstrip_all_space; [reflexivity|].
    unfold all_space in *. rewrite forallb_app, Hs, Hpost. reflexivity.
  - rewrite lstrip_app by congruence. rewrite Hs.
    now apply rstrip_app_space.
Qed.

Lemma lstrip_no_space (s : str) : no_space s = true -> lstrip s = s.
Proof.
  destruct s as [|c s]; simpl; [trivial|].
  intros H. apply andb_prop in H as [Hc _].
  apply negb_true_iff in Hc. now rewrite Hc.
Qed.

Lemma no_space_rev (s : str) : no_space (rev s) = no_space s.
Proof.
  unfold no_space. induction s as [|c s IH]; simpl; [trivial|].
  rewrite forallb_app, IH. simpl. rewrite andb_true_r. apply andb_comm.
Qed.

Lemma strip_no_space (s : str) : no_space s = true -> strip s = s.
Proof.
  intros H. unfold strip, rstrip. rewrite (lstrip_no_space s H).
  rewrite lstrip_no_space by now rewrite no_space_rev.
  apply rev_involutive.
Qed.

Lemma split_not_nil (sep : char) (s : str) : split sep s <> [].
Proof.
  destruct s as [|c s]; simpl; [discriminate|].
  destruct (c =? sep); [discriminate|].
  destruct (split sep s); discriminate.
Qed.

Lemma split_no_sep (s : str) : no_dot s = true -> split dot s = [s].
Proof.
  induction s as [|c s IH]; simpl; [trivial|].
  intros H. apply andb_prop in H as [Hc Hs].
  apply negb_true_iff in Hc. rewrite Hc, (IH Hs). reflexivity.
Qed.

Lemma split_app_sep (p rest : str) :
  no_dot p = true -> split dot (p ++ dot :: rest) = p :: split dot rest.
Proof.
  induction p as [|c p IH]; simpl.
  - intros _. reflexivity.
  - intros H. apply andb_prop in H as [Hc Hp].
    apply negb_true_iff in Hc. rewrite Hc, (IH Hp). reflexivity.
Qed.

(** Splitting undoes joining, when no part holds the separator. *)
Lemma split_join (parts : list str) :
  parts <> [] -> forallb no_dot parts = true ->
  split dot (join (lit ".") parts) = parts.
Proof.
  induction parts as [|p parts IH]; [congruence|].
  intros _ H. simpl in H. apply andb_prop in H as [Hp Hparts].
  destruct parts as [|q parts].
  - simpl. now apply split_no_sep.
  - change (join (lit ".") (p :: q :: parts))
      with (p ++ dot :: join (lit ".") (q :: parts)).
    rewrite split_app_sep by trivial.
    rewrite IH; [reflexivity | discriminate | trivial].
Qed.

(** ** [int] *)

Lemma skip_spaces_idem (s : str) : skip_spaces (skip_spaces s) = skip_spaces s.
Proof.
  induction s as [|c s IH]; simpl; [trivial|].
  destruct (int_isspace c) eqn:Hc; [trivial|]. simpl. now rewrite Hc.
Qed.

(** [int] reads the same from a string and from what is left of it after
    its leading blanks. *)
Lemma py_int_skip_spaces (s : str) : py_int (skip_spaces s) = py_int s.
Proof. unfold py_int. now rewrite skip_spaces_idem. Qed.

Lemma skip_spaces_prefix (s : str) :
  exists w, s = w ++ skip_spaces s /\ forallb int_isspace w = true.
Proof.
  induction s as [|c s (w & Hw & Hsp)]; simpl.
  - now exists [].
  - destruct (int_isspace c) eqn:Hc.
    + exists (c :: w). simpl. rewrite Hc, Hsp.
      split; [now f_equal | reflexivity].
    + now exists [].
Qed.

Lemma skip_spaces_nil (s : str) :
  skip_spaces s = [] -> forallb int_isspace s = true.
Proof.
  induction s as [|c s IH]; simpl; [trivial|].
  destruct (int_isspace c); [auto | discriminate].
Qed.

Lemma scan_digits_prefix (s : str) :
  forall p acc n v n' rest,
    scan_digits s p acc n = Some (v, n', rest) ->
    exists ds, s = ds ++ rest
      /\ forallb (fun c => (c =? underscore)
                  || match int_digit c with Some _ => true | None => false end) ds
         = true.
Proof.
  induction s as [|c s IH]; simpl; intros p acc n v n' rest H.
  - destruct p; [discriminate|]. inversion H. now exists [].
  - destruct (c =? underscore) eqn:Hu.
    + destruct p; [discriminate|].
      apply IH in H as (ds & Hds & Hall).
      exists (c :: ds). simpl. rewrite Hu, Hall.
      split; [now f_equal | reflexivity].
    + destruct (int_digit c) as [d|] eqn:Hd.
      * apply IH in H as (ds & Hds & Hall).
        exists (c :: ds). simpl. rewrite Hu, Hd, Hall.
        split; [now f_equal | reflexivity].
      * destruct p; [discriminate|]. inversion H. now exists [].
Qed.

Lemma split_sign_cases (s : str) (negative : bool) (body : str) :
  split_sign s = (negative, body) ->
  s = body \/ exists c, s = c :: body /\ ((c =? plus_sign) || (c =? minus_sign)) = true.
Proof.
  destruct s as [|c s]; simpl.
  - intros H. inversion H. now left.
  - destruct (c =? plus_sign) eqn:Hp.
    + intros H. inversion H. right. exists c. now rewrite Hp.
    + destruct (c =? minus_sign) eqn:Hm; intros H; inversion H.
      * right. exists c. now rewrite Hp, Hm.
      * now left.
Qed.

(** A string that [int] reads holds nothing but blanks, digits, signs and
    underscores. *)
Lemma py_int_chars_ok (s : str) (v : Z) :
  py_int s = inr v -> forallb int_char_ok s = true.
Proof.
  unfold py_int. intros H.
  destruct (skip_spaces_prefix s) as (w & Hw & Hsp).
  destruct (split_sign (skip_spaces s)) as [negative body] eqn:Hsign.
  assert (Hbody : forallb int_char_ok body = true).
  { destruct body as [|c body']; [discriminate|].
    destruct (c =? underscore); [discriminate|].
    destruct (scan_digits (c :: body') false 0%Z 0) as [[[v' n] rest]|] eqn:Hscan;
      [|discriminate].
    destruct (n =? 0); [discriminate|].
    destruct (int_max_str_digits <? n); [discriminate|].
    destruct (skip_spaces rest) eqn:Hrest; [|discriminate].
    apply scan_digits_prefix in Hscan as (ds & Hds & Hall).
    apply skip_spaces_nil in Hrest.
    rewrite Hds, forallb_app. apply andb_true_intro. split.
    - rewrite forallb_forall in *. intros x Hx. specialize (Hall x Hx).
      char_ok_cases x.
    - rewrite forallb_forall in *. intros x Hx. specialize (Hrest x Hx).
      char_ok_cases x. }
  rewrite Hw, forallb_app. apply andb_true_intro. split.
  - rewrite forallb_forall in *. intros x Hx. specialize (Hsp x Hx).
    char_ok_cases x.
  - apply split_sign_cases in Hsign as [->|(c & -> & Hc)]; [trivial|].
    simpl. rewrite Hbody, andb_true_r. char_ok_cases c.
Qed.

Lemma skip_spaces_digit (c : char) (d : N) (s : str) :
  int_digit c = Some d -> skip_spaces (c :: s) = c :: s.
Proof.
  intros H. simpl. now rewrite (digit_not_int_space c d H).
Qed.

(** One sign in front of a digit is read: [+] changes nothing, [-]
    negates. *)
Lemma py_int_signed (c : char) (d : N) (s : str) (v : Z) :
  int_digit c = Some d -> py_int (c :: s) = inr v ->
  py_int (plus_sign :: c :: s) = inr v
  /\ py_int (minus_sign :: c :: s) = inr (- v)%Z.
Proof.
  intros Hd. destruct (digit_not_special c d Hd) as (Hp & Hm & Hu & _).
  unfold py_int. rewrite (skip_spaces_digit c d s Hd).
  change (skip_spaces (plus_sign :: c :: s)) with (plus_sign :: c :: s).
  change (skip_spaces (minus_sign :: c :: s)) with (minus_sign :: c :: s).
  unfold split_sign. rewrite Hp, Hm. simpl (plus_sign =? plus_sign).
  simpl (minus_sign =? plus_sign). simpl (minus_sign =? minus_sign).
  cbv iota. rewrite Hu.
  destruct (scan_digits (c :: s) false 0%Z 0) as [[[v' n] rest]|]; [|discriminate].
  destruct (n =? 0); [discriminate|].
  destruct (int_max_str_digits <? n); [discriminate|].
  destruct (skip_spaces rest); [|discriminate].
  intros H. inversion H. split; reflexivity.
Qed.

(** Where [int] succeeds, the white space that [strip] removes in front is
    the white space that [int] skips. *)
Lemma py_int_lstrip (s : str) (v : Z) :
  py_int s = inr v -> lstrip s = skip_spaces s /\ skip_spaces s <> [].
Proof.
  induction s as [|c s IH].
  - discriminate.
  - intros H. simpl. destruct (int_isspace c) eqn:Hc.
    + rewrite (int_isspace_unicode c Hc). apply IH.
      rewrite <- py_int_skip_spaces in H. simpl in H. rewrite Hc in H.
      now rewrite py_int_skip_spaces in H.
    + split; [|discriminate].
      destruct (Py_UNICODE_ISSPACE c) eqn:Hsp; [exfalso|reflexivity].
      pose proof (unicode_space_not_digit c Hsp) as Hd.
      assert (Hascii : (c <? 127) = true).
      { unfold int_isspace in Hc. destruct (c <? 127); congruence. }
      pose proof (ascii_forall
        (fun c => implb (Py_UNICODE_ISSPACE c)
                    (negb ((c =? plus_sign) || (c =? minus_sign) || (c =? underscore))))
        eq_refl c Hascii) as HP.
      cbv beta in HP. rewrite Hsp in HP. simpl in HP.
      apply negb_true_iff in HP.
      repeat (apply orb_false_iff in HP; destruct HP as [HP ?]).
      unfold py_int in H. simpl in H. rewrite Hc in H.
      unfold split_sign in H.
      repeat match goal with E : (c =? _) = false |- _ => rewrite E in H end.
      simpl in H.
      repeat match goal with E : (c =? _) = false |- _ => rewrite E in H end.
      rewrite Hd in H. simpl in H. discriminate.
Qed.

Lemma py_int_of_lstrip (s : str) (v : Z) :
  py_int s = inr v -> py_int (lstrip s) = inr v.
Proof.
  intros H. destruct (py_int_lstrip s v H) as [-> _].
  now rewrite py_int_skip_spaces.
Qed.

(** [str] of a byte: no dot, no white space, and [int] reads the byte back. *)
Lemma py_str_byte (v : Z) :
  (0 <= v <= 255)%Z ->
  py_int (py_str v) = inr v /\ no_dot (py_str v) = true
  /\ no_space (py_str v) = true.
Proof.
  intros Hv.
  assert (Hall : forallb canonical_byte_ok byte_values = true)
    by (vm_compute; reflexivity).
  rewrite forallb_forall in Hall.
  specialize (Hall v (byte_values_complete v Hv)).
  unfold canonical_byte_ok in Hall.
  apply andb_prop in Hall as [Hall Hsp]. apply andb_prop in Hall as [Hint Hdot].
  destruct (py_int (py_str v)) as [|v']; [discriminate|].
  apply Z.eqb_eq in Hint. subst v'. auto.
Qed.

(** ** The loop of the validator *)

Lemma segment_ok_value (seg : str) :
  segment_ok seg = true ->
  py_int seg = inr (segment_value seg) /\ (0 <= segment_value seg <= 255)%Z.
Proof.
  unfold segment_ok, segment_value. destruct (py_int seg) as [|v]; [discriminate|].
  intros H. split; [reflexivity | lia].
Qed.

Lemma parse_bytes_ok_prefix (raw_ip_v4 : str) (pre rest : list str) :
  forall parsed_bytes,
    forallb segment_ok pre = true ->
    parse_bytes raw_ip_v4 (pre ++ rest) parsed_bytes
    = parse_bytes raw_ip_v4 rest (parsed_bytes ++ map segment_value pre).
Proof.
  induction pre as [|seg pre IH]; simpl; intros parsed_bytes H.
  - now rewrite app_nil_r.
  - apply andb_prop in H as [Hseg Hpre].
    destruct (segment_ok_value seg Hseg) as [Hint Hrange]. rewrite Hint.
    replace ((0 <=? segment_value seg)%Z && (segment_value seg <=? 255)%Z)
      with true by (symmetry; apply andb_true_intro; lia).
    simpl. rewrite IH by trivial. now rewrite <- app_assoc.
Qed.

Lemma parse_bytes_all_ok (raw_ip_v4 : str) (raw_bytes : list str) (parsed_bytes : list Z) :
  forallb segment_ok raw_bytes = true ->
  parse_bytes raw_ip_v4 raw_bytes parsed_bytes
  = Return (parsed_bytes ++ map segment_value raw_bytes).
Proof.
  intros H. rewrite <- (app_nil_r raw_bytes) at 1.
  now rewrite parse_bytes_ok_prefix.
Qed.

Lemma parse_bytes_return (raw_ip_v4 : str) (raw_bytes : list str) :
  forall parsed_bytes result_bytes,
    parse_bytes raw_ip_v4 raw_bytes parsed_bytes = Return result_bytes ->
    forallb segment_ok raw_bytes = true.
Proof.
  induction raw_bytes as [|seg raw_bytes IH]; simpl; intros parsed_bytes l H.
  - reflexivity.
  - unfold segment_ok. destruct (py_int seg) as [|v]; [discriminate|].
    destruct ((0 <=? v)%Z && (v <=? 255)%Z); simpl in *; [eauto | discriminate].
Qed.

(** What the validator returns, and when. *)
Lemma validate_success (raw_ip_v4 : str) :
  length (split dot (strip raw_ip_v4)) = 4%nat ->
  forallb segment_ok (split dot (strip raw_ip_v4)) = true ->
  _validate_ip_v4 raw_ip_v4
  = Return (join (lit ".") (map py_str (map segment_value (split dot (strip raw_ip_v4))))).
Proof.
  intros Hlen Hok. unfold _validate_ip_v4. rewrite Hlen. simpl negb. cbv iota.
  now rewrite parse_bytes_all_ok.
Qed.

Lemma validate_return (raw_ip_v4 r : str) :
  _validate_ip_v4 raw_ip_v4 = Return r ->
  length (split dot (strip raw_ip_v4)) = 4%nat
  /\ forallb segment_ok (split dot (strip raw_ip_v4)) = true.
Proof.
  unfold _validate_ip_v4.
  destruct (length (split dot (strip raw_ip_v4)) =? 4)%nat eqn:Hlen;
    simpl; [|discriminate].
  apply Nat.eqb_eq in Hlen.
  destruct (parse_bytes raw_ip_v4 _ []) as [l|e] eqn:Hparse; [|discriminate].
  intros _. split; [trivial|]. eapply parse_bytes_return; eauto.
Qed.

Lemma validate_bad_count (raw_ip_v4 : str) :
  length (split dot (strip raw_ip_v4)) <> 4%nat ->
  _validate_ip_v4 raw_ip_v4
  = Raise (ValueError (BytesCountMismatch (length (split dot (strip raw_ip_v4))) raw_ip_v4)).
Proof.
  intros Hlen. unfold _validate_ip_v4.
  apply Nat.eqb_neq in Hlen. now rewrite Hlen.
Qed.

(** The loop stops at the first segment it cannot accept, with the error of
    that segment. *)
Lemma validate_first_bad (raw_ip_v4 : str) (pre : list str) (seg : str) (post : list str) :
  length (split dot (strip raw_ip_v4)) = 4%nat ->
  split dot (strip raw_ip_v4) = pre ++ seg :: post ->
  forallb segment_ok pre = true ->
  segment_ok seg = false ->
  _validate_ip_v4 raw_ip_v4
  = Raise (ValueError match py_int seg with
                      | inl e => InvalidType seg raw_ip_v4 e
                      | inr v => ByteOutOfRange v raw_ip_v4
                      end).
Proof.
  intros Hlen Hsplit Hpre Hseg.
  unfold _validate_ip_v4. rewrite Hlen. simpl negb. cbv iota.
  rewrite Hsplit, parse_bytes_ok_prefix by trivial. simpl.
  unfold segment_ok in Hseg. destruct (py_int seg) as [e|v]; [reflexivity|].
  now rewrite Hseg.
Qed.

Lemma validate_same_strip (a b r : str) :
  strip a = strip b -> _validate_ip_v4 a = Return r -> _validate_ip_v4 b = Return r.
Proof.
  intros Heq Ha. destruct (validate_return a r Ha) as [Hlen Hok].
  rewrite (validate_success a Hlen Hok) in Ha.
  rewrite Heq in *. now rewrite (validate_success b Hlen Hok).
Qed.

Lemma no_space_app (s t : str) :
  no_space (s ++ t) = no_space s && no_space t.
Proof. apply forallb_app. Qed.

Lemma no_space_join_bytes (vals : list Z) :
  Forall (fun v => 0 <= v <= 255)%Z vals ->
  no_space (join (lit ".") (map py_str vals)) = true.
Proof.
  induction 1 as [|v vals Hv Hvals IH]; [reflexivity|].
  destruct (py_str_byte v Hv) as (_ & _ & Hsp).
  destruct vals as [|v' vals]; [exact Hsp|].
  change (no_space (py_str v ++ lit "." ++ join (lit ".") (map py_str (v' :: vals))) = true).
  rewrite !no_space_app, Hsp, IH. reflexivity.
Qed.

(** The validator leaves a joined list of four bytes as it is. *)
Lemma validate_canonical (vals : list Z) :
  length vals = 4%nat -> Forall (fun v => 0 <= v <= 255)%Z vals ->
  _validate_ip_v4 (join (lit ".") (map py_str vals))
  = Return (join (lit ".") (map py_str vals)).
Proof.
  intros Hlen Hvals.
  assert (Hsplit : split dot (strip (join (lit ".") (map py_str vals)))
                   = map py_str vals).
  { rewrite strip_no_space by now apply no_space_join_bytes.
    apply split_join.
    - destruct vals; [discriminate | simpl; discriminate].
    - rewrite forallb_forall. intros p Hp. apply in_map_iff in Hp as (v & <- & Hv).
      rewrite Forall_forall in Hvals. now apply py_str_byte, Hvals. }
  assert (Hback : map segment_value (map py_str vals) = vals).
  { rewrite map_map. rewrite <- (map_id vals) at 2.
    apply map_ext_in. intros v Hv. rewrite Forall_forall in Hvals.
    unfold segment_value. now destruct (py_str_byte v (Hvals v Hv)) as (-> & _). }
  rewrite validate_success; rewrite Hsplit.
  - now rewrite Hback.
  - now rewrite length_map.
  - rewrite forallb_forall. intros p Hp. apply in_map_iff in Hp as (v & <- & Hv).
    rewrite Forall_forall in Hvals. specialize (Hvals v Hv).
    unfold segment_ok. destruct (py_str_byte v Hvals) as (-> & _).
    apply andb_true_intro. lia.
Qed.

Lemma segment_values_in_range (segs : list str) :
  forallb segment_ok segs = true ->
  Forall (fun v => 0 <= v <= 255)%Z (map segment_value segs).
Proof.
  intros H. apply Forall_forall. intros v Hv.
  apply in_map_iff in Hv as (seg & <- & Hseg).
  rewrite forallb_forall in H. now apply segment_ok_value, H.
Qed.

Lemma segment_ok_no_dot (seg : str) : segment_ok seg = true -> no_dot seg = true.
Proof.
  intros H. apply segment_ok_value in H as [H _].
  apply py_int_chars_ok in H. unfold no_dot. rewrite forallb_forall in *.
  intros c Hc. specialize (H c Hc).
  destruct (c =? dot) eqn:Hdot; [|reflexivity].
  apply N.eqb_eq in Hdot. subst c. discriminate.
Qed.

Lemma no_dot_lstrip (s : str) : no_dot s = true -> no_dot (lstrip s) = true.
Proof.
  induction s as [|c s IH]; simpl; [trivial|].
  intros H. destruct (Py_UNICODE_ISSPACE c); [|exact H].
  apply andb_prop in H as [_ H]. auto.
Qed.

Lemma rstrip_snoc (s : str) (c : char) :
  Py_UNICODE_ISSPACE c = false -> rstrip (s ++ [c]) = s ++ [c].
Proof.
  intros Hc. unfold rstrip. rewrite rev_app_distr. simpl. rewrite Hc.
  simpl. now rewrite rev_involutive.
Qed.

(** ** The validator: its outcome on every string *)

(** C1, as stated, fails: in ["256.x.1.1"] the segment ["x"] does not parse
    as an integer, yet the validator reports the first segment as out of
    range and never reads ["x"]. *)
Lemma validate_range_error_hides_non_numeric :
  split dot (strip (lit "256.x.1.1")) = [lit "256"; lit "x"; lit "1"; lit "1"]
  /\ py_int (lit "x") = inl InvalidLiteral
  /\ _validate_ip_v4 (lit "256.x.1.1")
     = Raise (ValueError (ByteOutOfRange 256 (lit "256.x.1.1")))
  /\ is_out_of_range_error (_validate_ip_v4 (lit "256.x.1.1")) = true
  /\ is_non_numeric_error (_validate_ip_v4 (lit "256.x.1.1")) = false.
Proof. vm_compute. repeat split. Qed.

(** C1 (amended): the validator strips and splits its argument on ['.'] and
    fails with the segment-count error unless exactly four segments result;
    otherwise the first segment, from the left, that does not parse as an
    integer or parses outside [0, 255] decides the error, non-numeric in the
    first case and out-of-range in the second; a string whose four segments
    all parse within [0, 255] is accepted. *)
Theorem validate_first_failure_decides (raw_ip_v4 : str) :
  let raw_bytes := split dot (strip raw_ip_v4) in
  (length raw_bytes <> 4%nat ->
   _validate_ip_v4 raw_ip_v4
   = Raise (ValueError (BytesCountMismatch (length raw_bytes) raw_ip_v4)))
  /\ (length raw_bytes = 4%nat ->
      forall pre seg post,
        raw_bytes = pre ++ seg :: post -> forallb segment_ok pre = true ->
        (forall e, py_int seg = inl e ->
           _validate_ip_v4 raw_ip_v4 = Raise (ValueError (InvalidType seg raw_ip_v4 e)))
        /\ (forall v, py_int seg = inr v -> (v < 0 \/ 255 < v)%Z ->
             _validate_ip_v4 raw_ip_v4 = Raise (ValueError (ByteOutOfRange v raw_ip_v4))))
  /\ (length raw_bytes = 4%nat -> forallb segment_ok raw_bytes = true ->
      _validate_ip_v4 raw_ip_v4
      = Return (join (lit ".") (map py_str (map segment_value raw_bytes)))).
Proof.
  intros raw_bytes. subst raw_bytes. split; [|split].
  - apply validate_bad_count.
  - intros Hlen pre seg post Hsplit Hpre. split.
    + intros e He.
      rewrite (validate_first_bad _ _ _ _ Hlen Hsplit Hpre); unfold segment_ok;
        now rewrite He.
    + intros v Hv Hrange.
      assert (Hout : ((0 <=? v) && (v <=? 255))%Z = false)
        by (apply andb_false_iff; rewrite !Z.leb_gt; lia).
      rewrite (validate_first_bad _ _ _ _ Hlen Hsplit Hpre); unfold segment_ok;
        now rewrite Hv.
  - intros Hlen Hok. now apply validate_success.
Qed.

Lemma validate_first_failure_decides_witness :
  _validate_ip_v4 (lit "1.2.3")
  = Raise (ValueError (BytesCountMismatch 3 (lit "1.2.3")))
  /\ _validate_ip_v4 (lit "1.2.3.four")
     = Raise (ValueError (InvalidType (lit "four") (lit "1.2.3.four") InvalidLiteral))
  /\ _validate_ip_v4 (lit "1.256.x.1")
     = Raise (ValueError (ByteOutOfRange 256 (lit "1.256.x.1")))
  /\ _validate_ip_v4 (lit "192.168.1.1") = Return (lit "192.168.1.1").
Proof.
  split; [|split; [|split]].
  - apply (proj1 (validate_first_failure_decides (lit "1.2.3"))).
    vm_compute. discriminate.
  - apply (proj1 (proj2 (validate_first_failure_decides (lit "1.2.3.four")))
             eq_refl [lit "1"; lit "2"; lit "3"] (lit "four") [] eq_refl eq_refl).
    reflexivity.
  - apply (proj1 (proj2 (validate_first_failure_decides (lit "1.256.x.1")))
             eq_refl [lit "1"] (lit "256") [lit "x"; lit "1"] eq_refl eq_refl).
    + reflexivity.
    + right. reflexivity.
  - apply (proj2 (proj2 (validate_first_failure_decides (lit "192.168.1.1"))));
      reflexivity.
Defined.


(** C6: on success the validator returns the four parsed integers, each
    written out by [str] and joined with dots, not its argument: it returns
    ["1.2.3.4"] for ["01.02.03.04"]. *)
Theorem validate_returns_canonical_string :
  (forall raw_ip_v4 r,
      _validate_ip_v4 raw_ip_v4 = Return r ->
      exists a b c d,
        Forall2 (fun seg v => py_int seg = inr v /\ (0 <= v <= 255)%Z)
                (split dot (strip raw_ip_v4)) [a; b; c; d]
        /\ r = join (lit ".") (map py_str [a; b; c; d]))
  /\ _validate_ip_v4 (lit "01.02.03.04") = Return (lit "1.2.3.4")
  /\ lit "1.2.3.4" <> lit "01.02.03.04".
Proof.
  split; [|split; [reflexivity | discriminate]].
  intros raw_ip_v4 r H.
  destruct (validate_return raw_ip_v4 r H) as [Hlen Hok].
  rewrite (validate_success raw_ip_v4 Hlen Hok) in H. inversion H as [Hr].
  clear H Hr.
  destruct (split dot (strip raw_ip_v4)) as [|sa [|sb [|sc [|sd [|? ?]]]]];
    try discriminate.
  simpl in Hok.
  repeat (apply andb_prop in Hok; destruct Hok as [?Hseg Hok]).
  exists (segment_value sa), (segment_value sb), (segment_value sc), (segment_value sd).
  split; [|reflexivity].
  repeat constructor; now apply segment_ok_value.
Qed.

Lemma validate_returns_canonical_string_witness :
  exists a b c d,
    Forall2 (fun seg v => py_int seg = inr v /\ (0 <= v <= 255)%Z)
            (split dot (strip (lit " 010.0.00.255"))) [a; b; c; d]
    /\ lit "10.0.0.255" = join (lit ".") (map py_str [a; b; c; d]).
Proof.
  apply (proj1 validate_returns_canonical_string (lit " 010.0.00.255") (lit "10.0.0.255")).
  reflexivity.
Defined.

(** C7: the validator is idempotent where it succeeds: applied to its own
    output it succeeds and returns that output again. *)
Theorem validate_idempotent (x r : str) :
  _validate_ip_v4 x = Return r -> _validate_ip_v4 r = Return r.
Proof.
  intros H. destruct (validate_return x r H) as [Hlen Hok].
  rewrite (validate_success x Hlen Hok) in H. inversion H as [Hr].
  apply validate_canonical.
  - now rewrite length_map.
  - now apply segment_values_in_range.
Qed.

Lemma validate_idempotent_witness :
  _validate_ip_v4 (lit "1.2.3.4") = Return (lit "1.2.3.4").
Proof.
  apply (validate_idempotent (lit "01.+2. 3.0_4")). reflexivity.
Defined.

(** C10: three valid segments followed by a trailing dot split into four
    segments, the last of them empty, and the validator rejects the string
    with the non-numeric error, not with the segment-count error. *)
Theorem validate_trailing_dot (a b c : str) :
  segment_ok a = true -> segment_ok b = true -> segment_ok c = true ->
  let raw_ip_v4 := a ++ lit "." ++ b ++ lit "." ++ c ++ lit "." in
  split dot (strip raw_ip_v4) = [lstrip a; b; c; []]
  /\ _validate_ip_v4 raw_ip_v4
     = Raise (ValueError (InvalidType [] raw_ip_v4 InvalidLiteral))
  /\ is_non_numeric_error (_validate_ip_v4 raw_ip_v4) = true
  /\ is_segment_count_error (_validate_ip_v4 raw_ip_v4) = false.
Proof.
  intros Ha Hb Hc raw_ip_v4.
  assert (Hsplit : split dot (strip raw_ip_v4) = [lstrip a; b; c; []]).
  { subst raw_ip_v4. change (lit ".") with [dot].
    destruct (segment_ok_value a Ha) as [Hinta _].
    destruct (py_int_lstrip a _ Hinta) as [Hstrip Hne].
    unfold strip. rewrite lstrip_app by congruence.
    replace (lstrip a ++ [dot] ++ b ++ [dot] ++ c ++ [dot])
      with ((lstrip a ++ [dot] ++ b ++ [dot] ++ c) ++ [dot])
      by (now rewrite <- !app_assoc).
    rewrite rstrip_snoc by reflexivity.
    rewrite <- !app_assoc. simpl.
    rewrite !split_app_sep; auto using segment_ok_no_dot, no_dot_lstrip. }
  assert (Hraise : _validate_ip_v4 raw_ip_v4
                   = Raise (ValueError (InvalidType [] raw_ip_v4 InvalidLiteral))).
  { rewrite (validate_first_bad raw_ip_v4 [lstrip a; b; c] [] []).
    - reflexivity.
    - now rewrite Hsplit.
    - exact Hsplit.
    - simpl. rewrite Hb, Hc, !andb_true_r.
      destruct (segment_ok_value a Ha) as [Hinta Hrange].
      unfold segment_ok. rewrite (py_int_of_lstrip a _ Hinta).
      apply andb_true_intro. lia.
    - reflexivity. }
  rewrite Hraise. auto.
Qed.

Lemma validate_trailing_dot_witness :
  _validate_ip_v4 (lit "1.2.3.")
  = Raise (ValueError (InvalidType [] (lit "1.2.3.") InvalidLiteral)).
Proof.
  apply (validate_trailing_dot (lit "1") (lit "2") (lit "3")); reflexivity.
Defined.

(** ** The run *)

Lemma str_eqb_eq (a b : str) : str_eqb a b = true <-> a = b.
Proof.
  revert b. induction a as [|x a IH]; intros [|y b]; simpl; split;
    try discriminate; try reflexivity.
  - intros H. apply andb_prop in H as [Hx Ha].
    apply N.eqb_eq in Hx. apply IH in Ha. congruence.
  - intros H. inversion H. subst. rewrite N.eqb_refl. simpl. now apply IH.
Qed.

Lemma filter_none {A} (f : A -> bool) (l : list A) :
  (forall x, In x l -> f x = false) -> filter f l = [].
Proof.
  induction l as [|x l IH]; simpl; intros H; [reflexivity|].
  rewrite (H x) by now left. apply IH. intros y Hy. apply H. now right.
Qed.

Lemma filter_names_none {A} (name : A -> str) (target : str) (l : list A) :
  (forall x, In x l -> name x <> target) ->
  filter (fun x => str_eqb (name x) target) l = [].
Proof.
  intros H. apply filter_none. intros x Hx.
  destruct (str_eqb (name x) target) eqn:Heq; [|reflexivity].
  apply str_eqb_eq in Heq. now apply H in Hx.
Qed.

(** The resolver makes its one request whatever comes of it. *)
Lemma get_public_ip_v4_trace (w : World) :
  fst (get_public_ip_v4 w) = [HttpGet (lit "https://api.ipify.org")].
Proof.
  unfold get_public_ip_v4, call, lift, ret, bind.
  destruct (ipify w) as [response|e]; [|reflexivity].
  destruct (raise_for_status response); [|reflexivity].
  destruct (_validate_ip_v4 (text response)); reflexivity.
Qed.

Lemma get_public_ip_v4_eq (w : World) :
  get_public_ip_v4 w
  = ([HttpGet (lit "https://api.ipify.org")], snd (get_public_ip_v4 w)).
Proof.
  rewrite <- (get_public_ip_v4_trace w). now destruct (get_public_ip_v4 w).
Qed.

Lemma critical_entries_app (t t' : trace) :
  critical_entries (t ++ t') = critical_entries t ++ critical_entries t'.
Proof. apply filter_app. Qed.

Lemma critical_entries_bind {A B} (m : M A) (k : A -> M B) :
  critical_entries (fst m) = [] ->
  (forall a, critical_entries (fst (k a)) = []) ->
  critical_entries (fst (bind m k)) = [].
Proof.
  destruct m as [t [a|e]]; simpl; intros Hm Hk; [|exact Hm].
  specialize (Hk a). destruct (k a) as [t' r]. simpl in *.
  now rewrite critical_entries_app, Hm, Hk.
Qed.

(** The [try] block itself logs nothing at level CRITICAL. *)
Lemma main_body_no_critical (w : World) :
  critical_entries (fst (main_body w)) = [].
Proof.
  unfold main_body, update_route_53_record_set, load_record_info,
    get_boto3_session.
  repeat (apply critical_entries_bind;
          [try reflexivity; now rewrite get_public_ip_v4_trace | intros]).
  reflexivity.
Qed.

Lemma main_of_raise (w : World) (e : exc) :
  snd (main_body w) = Raise e -> is_Exception e = true ->
  main w = (fst (main_body w) ++ [Log CRITICAL (MsgUnhandledException e)], ExitZero).
Proof.
  unfold main. destruct (main_body w) as [t r]. simpl.
  intros -> He. now rewrite He.
Qed.

Lemma main_of_return (w : World) (u : unit) :
  snd (main_body w) = Return u -> main w = (fst (main_body w), ExitZero).
Proof.
  unfold main. destruct (main_body w) as [t r]. simpl. now intros ->.
Qed.

(** What the [try] block has in its trace, the whole run has too. *)
Lemma main_keeps_body_trace (w : World) (ev : event) :
  In ev (fst (main_body w)) -> In ev (fst (main w)).
Proof.
  unfold main. destruct (main_body w) as [t [u|e]]; simpl; [trivial|].
  destruct (is_Exception e); simpl; [|trivial].
  intros H. apply in_or_app. now left.
Qed.

(** Two answers to the same question are the same answer. *)
Ltac same_answers :=
  repeat match goal with
         | H : ?x = _, H' : ?x = _ |- _ =>
             rewrite H in H'; inversion H'; subst; clear H'
         end.

(** The [try] block ends with an exception exactly when one of its stages
    raises it. *)
Lemma main_body_raises_iff (w : World) (e : exc) :
  snd (main_body w) = Raise e <-> stage_raises w e.
Proof.
  unfold main_body, update_route_53_record_set, load_record_info,
    get_boto3_session, call, log, lift.
  rewrite get_public_ip_v4_eq.
  destruct (hosted_zone_config w) as [record_info|e1] eqn:Hcfg; cbn [bind app snd];
    [|split; [intros [= <-]; now constructor
             | intros []; same_answers; congruence]].
  destruct (snd (get_public_ip_v4 w)) as [public_ip|e2] eqn:Hip; cbn [bind app snd];
    [|split; [intros [= <-]; eapply get_public_ip_v4_raises; eauto
             | intros []; same_answers; congruence]].
  destruct (aws_config_session w) as [[]|e3] eqn:Hsession; cbn [bind app snd];
    [|split; [intros [= <-]; eapply get_boto3_session_raises; eauto
             | intros []; same_answers; congruence]].
  destruct (route53 w) as [client|e4] eqn:Hclient; cbn [bind app snd];
    [|split; [intros [= <-]; eapply session_client_raises; eauto
             | intros []; same_answers; congruence]].
  destruct (list_hosted_zones_by_name client) as [zones|e5] eqn:Hzones;
    cbn [bind app snd];
    [|split; [intros [= <-]; eapply list_hosted_zones_raises; eauto
             | intros []; same_answers; congruence]].
  destruct (filter _ zones) as [|zone zones'] eqn:Hzone; cbn [bind app snd next];
    [split; [intros [= <-]; eapply zone_lookup_raises; eauto
            | intros []; same_answers; congruence]|].
  destruct (list_resource_record_sets client (hz_Id zone)) as [records|e6] eqn:Hrecords;
    cbn [bind app snd];
    [|split; [intros [= <-]; eapply list_record_sets_raises; eauto
             | intros []; same_answers; congruence]].
  destruct (change_resource_record_sets client (hz_Id zone) _) as [[]|e7] eqn:Hchange;
    cbn [bind app snd];
    [split; [discriminate | intros []; same_answers; congruence]
    |split; [intros [= <-]; eapply update_record_set_raises; eauto
            | intros []; same_answers; congruence]].
Qed.

(** C3, as stated, fails: a run whose configuration file is missing logs its
    critical entry and then ends with exit status 0, not with a non-zero
    one. *)
Lemma failed_run_exits_zero :
  stage_raises world_without_config (LibraryError "FileNotFoundError")
  /\ critical_entries (fst (main world_without_config))
     = [Log CRITICAL (MsgUnhandledException (LibraryError "FileNotFoundError"))]
  /\ snd (main world_without_config) = ExitZero
  /\ snd (main world_without_config) <> ExitNonZero.
Proof.
  split; [now apply load_record_info_raises|].
  repeat split. discriminate.
Qed.

(** C3 (amended): for every run in which a stage raises an exception of
    class [Exception], the script logs that exception in one entry at level
    CRITICAL, the last entry of the run and the only critical one, and then
    ends with exit status 0; a run in which every stage succeeds logs no
    critical entry and ends with exit status 0 as well. *)
Theorem main_logs_failure_and_exits_zero (w : World) :
  (forall e,
      stage_raises w e -> is_Exception e = true ->
      fst (main w) = fst (main_body w) ++ [Log CRITICAL (MsgUnhandledException e)]
      /\ critical_entries (fst (main w)) = [Log CRITICAL (MsgUnhandledException e)]
      /\ snd (main w) = ExitZero)
  /\ ((forall e, ~ stage_raises w e) ->
      snd (main_body w) = Return tt
      /\ critical_entries (fst (main w)) = [] /\ snd (main w) = ExitZero).
Proof.
  split.
  - intros e Hstage He. apply main_body_raises_iff in Hstage.
    rewrite (main_of_raise w e Hstage He). simpl.
    rewrite critical_entries_app, main_body_no_critical. auto.
  - intros Hnone.
    destruct (snd (main_body w)) as [[]|e] eqn:Hbody.
    + rewrite (main_of_return w tt Hbody). simpl.
      now rewrite main_body_no_critical.
    + apply main_body_raises_iff in Hbody. now apply Hnone in Hbody.
Qed.

Lemma main_logs_failure_and_exits_zero_witness :
  (critical_entries (fst (main world_echo_down))
   = [Log CRITICAL (MsgUnhandledException (HTTPError 503))]
   /\ snd (main world_echo_down) = ExitZero)
  /\ (critical_entries (fst (main world_without_record)) = []
      /\ snd (main world_without_record) = ExitZero).
Proof.
  split.
  - apply (proj1 (main_logs_failure_and_exits_zero world_echo_down) (HTTPError 503)).
    + now apply (get_public_ip_v4_raises _ _ example_record_info).
    + reflexivity.
  - apply (proj2 (main_logs_failure_and_exits_zero world_without_record)).
    intros e Hstage. apply main_body_raises_iff in Hstage. discriminate.
Defined.

(** *** Runs that reach the zone lookup

    The configuration is loaded, the public IP resolved, the session and
    the client created, and the hosted zones listed. *)

Section ZonesListed.

Variable w : World.
Variable record_info : RecordInfo.
Variable public_ip : str.
Variable client : Route53Client.
Variable zones : list HostedZone.

Hypothesis config_loaded : hosted_zone_config w = Return record_info.
Hypothesis ip_resolved : snd (get_public_ip_v4 w) = Return public_ip.
Hypothesis session_created : aws_config_session w = Return tt.
Hypothesis client_created : route53 w = Return client.
Hypothesis zones_listed : list_hosted_zones_by_name client = Return zones.

(** The zones of the configured name, in the order listed. *)
Let matching_zones : list HostedZone :=
  filter (fun hz => str_eqb (hz_Name hz) (target_hosted_zone_name record_info)) zones.

(** The request that the run makes for its record. *)
Let batch : ChangeBatch :=
  upsert_batch (target_record_set_name record_info)
    (target_record_set_type record_info)
    (target_record_set_ttl record_info) public_ip.

Let trace_until_lookup : trace :=
  [ Log INFO MsgRunning;
    OpenConfig BASE_CONFIG_PATH HOSTED_ZONE_CONFIG_FILENAME;
    HttpGet (lit "https://api.ipify.org");
    Log INFO (MsgIPv4Is public_ip);
    OpenConfig BASE_CONFIG_PATH AWS_CONFIG_FILENAME;
    CreateClient (lit "route53");
    ListHostedZonesByName;
    Log DEBUG (MsgFoundHostedZones (length zones)) ].

Ltac run_until_lookup :=
  unfold main_body, update_route_53_record_set, load_record_info,
    get_boto3_session, call, log, lift;
  rewrite config_loaded, get_public_ip_v4_eq, ip_resolved, session_created,
    client_created;
  cbn [bind app]; rewrite zones_listed; cbn [bind app];
  fold matching_zones.

(** Without a zone of the configured name the run stops at the lookup. *)
Lemma main_body_zone_missing :
  matching_zones = [] ->
  main_body w = (trace_until_lookup, Raise StopIteration).
Proof.
  intros Hnone. run_until_lookup. now rewrite Hnone.
Qed.

(** The trace and the outcome of a run that finds its hosted zone and lists
    the record sets of that zone. *)
Lemma main_body_upsert (zone : HostedZone) (zones' : list HostedZone)
    (records : list ResourceRecordSet) :
  matching_zones = zone :: zones' ->
  list_resource_record_sets client (hz_Id zone) = Return records ->
  main_body w
  = (trace_until_lookup
     ++ [ Log INFO (MsgTargetHostedZone zone);
          ListResourceRecordSets (hz_Id zone);
          Log DEBUG (MsgFoundRecordSets (length records));
          Log INFO (MsgTargetRecordSet
                      (next_or_None
                         (filter (fun r => str_eqb (Name r)
                                             (target_record_set_name record_info))
                                 records)));
          ChangeResourceRecordSets (hz_Id zone) batch ]
     ++ match change_resource_record_sets client (hz_Id zone) batch with
        | Return _ => [Log INFO MsgUpdated]
        | Raise _ => []
        end,
     change_resource_record_sets client (hz_Id zone) batch).
Proof.
  intros Hzone Hrecords. run_until_lookup. rewrite Hzone.
  cbn [bind app next]. rewrite Hrecords. cbn [bind app]. fold batch.
  destruct (change_resource_record_sets client (hz_Id zone) batch) as [[]|e];
    reflexivity.
Qed.

Lemma main_upsert_calls (zone : HostedZone) (zones' : list HostedZone)
    (records : list ResourceRecordSet) :
  matching_zones = zone :: zones' ->
  list_resource_record_sets client (hz_Id zone) = Return records ->
  change_calls (fst (main w)) = [ChangeResourceRecordSets (hz_Id zone) batch].
Proof.
  intros Hzone Hrecords. unfold main.
  rewrite (main_body_upsert zone zones' records Hzone Hrecords).
  destruct (change_resource_record_sets client (hz_Id zone) batch) as [u|e];
    [|destruct (is_Exception e)]; reflexivity.
Qed.

(** C4: in every run that lists the hosted zones and finds none whose name
    equals the configured [target_hosted_zone_name], the zone lookup raises
    [StopIteration], its not-found error, and the run ends there: it is
    logged as the critical entry, and neither the record sets are listed nor
    [change_resource_record_sets] is called. *)
Theorem missing_zone_aborts_before_upsert :
  (forall hz, In hz zones -> hz_Name hz <> target_hosted_zone_name record_info) ->
  snd (main_body w) = Raise StopIteration
  /\ change_calls (fst (main w)) = []
  /\ (forall id, ~ In (ListResourceRecordSets id) (fst (main w)))
  /\ critical_entries (fst (main w))
     = [Log CRITICAL (MsgUnhandledException StopIteration)].
Proof.
  intros Hnone.
  pose proof (main_body_zone_missing (filter_names_none _ _ _ Hnone)) as Hbody.
  unfold main. rewrite Hbody. simpl. repeat split.
  intros id Hin. repeat (destruct Hin as [Hin|Hin]; [discriminate|]). exact Hin.
Qed.

(** C5: in every run in which exactly one listed hosted zone has the
    configured zone name and no record set of that zone has the configured
    record name, the record sets are listed under that zone's ID, the target
    record is found absent ([None]), which raises nothing, and
    [change_resource_record_sets] is called exactly once, for that zone, with
    the resolved public IP as the one value; the run ends as that call
    does. *)
Theorem absent_record_is_upserted (zone : HostedZone)
    (records : list ResourceRecordSet) :
  filter (fun hz => str_eqb (hz_Name hz) (target_hosted_zone_name record_info)) zones
  = [zone] ->
  list_resource_record_sets client (hz_Id zone) = Return records ->
  (forall r, In r records -> Name r <> target_record_set_name record_info) ->
  In (ListResourceRecordSets (hz_Id zone)) (fst (main w))
  /\ In (Log INFO (MsgTargetRecordSet None)) (fst (main w))
  /\ change_calls (fst (main w))
     = [ChangeResourceRecordSets (hz_Id zone)
          (upsert_batch (target_record_set_name record_info)
             (target_record_set_type record_info)
             (target_record_set_ttl record_info) public_ip)]
  /\ map (fun ch => map Value (ResourceRecords (ResourceRecordSet_ ch)))
         (Changes (upsert_batch (target_record_set_name record_info)
                     (target_record_set_type record_info)
                     (target_record_set_ttl record_info) public_ip))
     = [[public_ip]]
  /\ snd (main_body w)
     = change_resource_record_sets client (hz_Id zone)
         (upsert_batch (target_record_set_name record_info)
            (target_record_set_type record_info)
            (target_record_set_ttl record_info) public_ip).
Proof.
  intros Hzone Hrecords Hnone.
  pose proof (main_upsert_calls zone [] records Hzone Hrecords) as Hcalls.
  pose proof (main_body_upsert zone [] records Hzone Hrecords) as Hbody.
  rewrite (filter_names_none _ _ _ Hnone) in Hbody.
  split; [|split; [|split; [|split]]].
  - apply main_keeps_body_trace. rewrite Hbody. simpl. tauto.
  - apply main_keeps_body_trace. rewrite Hbody. simpl. tauto.
  - exact Hcalls.
  - reflexivity.
  - now rewrite Hbody.
Qed.

End ZonesListed.

Lemma missing_zone_aborts_before_upsert_witness :
  snd (main_body world_without_zone) = Raise StopIteration
  /\ change_calls (fst (main world_without_zone)) = [].
Proof.
  destruct (missing_zone_aborts_before_upsert world_without_zone
              example_record_info (lit "203.0.113.7")
              (example_client [other_zone] [] (Return tt)) [other_zone])
    as (Hraise & Hcalls & _); try reflexivity.
  - intros hz [<-|[]]. discriminate.
  - split; assumption.
Defined.

Lemma absent_record_is_upserted_witness :
  change_calls (fst (main world_without_record))
  = [ChangeResourceRecordSets (lit "/hostedzone/Z1")
       (upsert_batch (lit "home.example.org.") (lit "A") 300 (lit "203.0.113.7"))]
  /\ snd (main_body world_without_record) = Return tt.
Proof.
  destruct (absent_record_is_upserted world_without_record
              example_record_info (lit "203.0.113.7")
              (example_client [other_zone; example_zone] [other_record] (Return tt))
              [other_zone; example_zone]
              eq_refl eq_refl eq_refl eq_refl eq_refl
              example_zone [other_record])
    as (_ & _ & Hcalls & _ & Hend); try reflexivity.
  - intros r [<-|[]]. discriminate.
  - split; assumption.
Defined.

(** C9: every call of [update_route_53_record_set] issues exactly one
    [change_resource_record_sets] request, whose batch holds exactly one
    change, an UPSERT of one resource record with one value, the value
    passed in.  It is issued without a look at the record sets listed
    before: whatever they are, also when the record is there with that very
    value, the run makes the same single request. *)
Theorem upsert_is_single_and_unconditional :
  (forall client hosted_zone_id name type ttl value,
      update_route_53_record_set client hosted_zone_id name type ttl value
      = ([ChangeResourceRecordSets hosted_zone_id (upsert_batch name type ttl value)],
         change_resource_record_sets client hosted_zone_id
           (upsert_batch name type ttl value))
      /\ map Action (Changes (upsert_batch name type ttl value)) = [lit "UPSERT"]
      /\ map (fun ch => ResourceRecords (ResourceRecordSet_ ch))
             (Changes (upsert_batch name type ttl value))
         = [[ {| Value := value |} ]])
  /\ (forall w record_info public_ip client zones zone zones' records,
        hosted_zone_config w = Return record_info ->
        snd (get_public_ip_v4 w) = Return public_ip ->
        aws_config_session w = Return tt ->
        route53 w = Return client ->
        list_hosted_zones_by_name client = Return zones ->
        filter (fun hz => str_eqb (hz_Name hz) (target_hosted_zone_name record_info)) zones
        = zone :: zones' ->
        list_resource_record_sets client (hz_Id zone) = Return records ->
        change_calls (fst (main w))
        = [ChangeResourceRecordSets (hz_Id zone)
             (upsert_batch (target_record_set_name record_info)
                (target_record_set_type record_info)
                (target_record_set_ttl record_info) public_ip)]).
Proof.
  split.
  - intros. repeat split.
  - intros w record_info public_ip client zones zone zones' records
      Hcfg Hip Hsession Hclient Hzones Hzone Hrecords.
    exact (main_upsert_calls w record_info public_ip client zones
             Hcfg Hip Hsession Hclient Hzones zone zones' records Hzone Hrecords).
Qed.

Lemma upsert_is_single_and_unconditional_witness :
  In current_record [other_record; current_record]
  /\ map Value (ResourceRecords current_record) = [lit "203.0.113.7"]
  /\ change_calls (fst (main world_up_to_date))
     = [ChangeResourceRecordSets (lit "/hostedzone/Z1")
          (upsert_batch (lit "home.example.org.") (lit "A") 300 (lit "203.0.113.7"))].
Proof.
  split; [right; left; reflexivity | split; [reflexivity|]].
  apply (proj2 upsert_is_single_and_unconditional world_up_to_date
           example_record_info (lit "203.0.113.7")
           (example_client [example_zone] [other_record; current_record] (Return tt))
           [example_zone] example_zone [] [other_record; current_record]);
    reflexivity.
Defined.



(** * Further properties of the script *)

(** ** The validator *)

Lemma split_length (s : str) :
  length (split dot s) = S (count_char dot s).
Proof.
  induction s as [|c s IH]; simpl; [reflexivity|].
  destruct (c =? dot).
  - simpl. now rewrite IH.
  - destruct (split dot s) as [|piece pieces]; simpl in *; [discriminate|].
    exact IH.
Qed.

Lemma count_char_app (c : char) (s t : str) :
  count_char c (s ++ t) = (count_char c s + count_char c t)%nat.
Proof.
  induction s as [|x s IH]; simpl; [reflexivity|]. rewrite IH. lia.
Qed.

Lemma count_char_rev (c : char) (s : str) :
  count_char c (rev s) = count_char c s.
Proof.
  induction s as [|x s IH]; simpl; [reflexivity|].
  rewrite count_char_app, IH. simpl. lia.
Qed.

Lemma count_dots_lstrip (s : str) :
  count_char dot (lstrip s) = count_char dot s.
Proof.
  induction s as [|x s IH]; simpl; [reflexivity|].
  destruct (Py_UNICODE_ISSPACE x) eqn:Hx; [|reflexivity].
  rewrite IH. destruct (x =? dot) eqn:Hdot; [|reflexivity].
  apply N.eqb_eq in Hdot. subst x. discriminate.
Qed.

(** [strip] removes no dot. *)
Lemma count_dots_strip (s : str) :
  count_char dot (strip s) = count_char dot s.
Proof.
  unfold strip, rstrip.
  now rewrite count_char_rev, count_dots_lstrip, count_char_rev, count_dots_lstrip.
Qed.

Lemma count_dots_no_dot (s : str) :
  no_dot s = true -> count_char dot s = 0%nat.
Proof.
  induction s as [|x s IH]; simpl; [reflexivity|].
  intros H. apply andb_prop in H as [Hx Hs]. apply negb_true_iff in Hx.
  rewrite Hx. auto.
Qed.

(** X1: the validator accepts only strings with exactly three dots; any
    other string, the empty one included, fails with the segment-count
    error, which reports one segment more than there are dots. *)
Theorem validate_needs_three_dots (raw_ip_v4 : str) :
  (count_char dot raw_ip_v4 <> 3%nat ->
   _validate_ip_v4 raw_ip_v4
   = Raise (ValueError (BytesCountMismatch (S (count_char dot raw_ip_v4)) raw_ip_v4)))
  /\ (forall r, _validate_ip_v4 raw_ip_v4 = Return r ->
                count_char dot raw_ip_v4 = 3%nat).
Proof.
  assert (Hlen : length (split dot (strip raw_ip_v4)) = S (count_char dot raw_ip_v4))
    by now rewrite split_length, count_dots_strip.
  split.
  - intros Hdots. rewrite validate_bad_count; rewrite Hlen; [reflexivity | lia].
  - intros r Hr. apply validate_return in Hr as [Hfour _]. lia.
Qed.

Lemma validate_needs_three_dots_witness :
  _validate_ip_v4 (lit "10.0.0.0.1")
  = Raise (ValueError (BytesCountMismatch 5 (lit "10.0.0.0.1")))
  /\ count_char dot (lit " 10.0.0.1 ") = 3%nat.
Proof.
  split.
  - apply (proj1 (validate_needs_three_dots (lit "10.0.0.0.1"))).
    vm_compute. discriminate.
  - apply (proj2 (validate_needs_three_dots (lit " 10.0.0.1 ")) (lit "10.0.0.1")).
    reflexivity.
Defined.

(** X2: an input of nothing but white space (the empty string, a lone
    newline) is one empty segment to the validator: it fails with the
    segment-count error for a count of 1. *)
Theorem validate_blank_input (raw_ip_v4 : str) :
  all_space raw_ip_v4 = true ->
  _validate_ip_v4 raw_ip_v4
  = Raise (ValueError (BytesCountMismatch 1 raw_ip_v4)).
Proof.
  intros Hblank. unfold _validate_ip_v4, strip.
  now rewrite (lstrip_all_space raw_ip_v4 Hblank).
Qed.

Lemma validate_blank_input_witness :
  _validate_ip_v4 [0x20; 0x0a] = Raise (ValueError (BytesCountMismatch 1 [0x20; 0x0a])).
Proof. apply validate_blank_input. reflexivity. Defined.

Lemma py_str_byte_shape (v : Z) :
  (0 <= v <= 255)%Z ->
  forallb is_ascii_digit (py_str v) = true
  /\ (1 <= length (py_str v) <= 3)%nat.
Proof.
  intros Hv.
  assert (Hall : forallb byte_str_shape byte_values = true)
    by (vm_compute; reflexivity).
  rewrite forallb_forall in Hall.
  specialize (Hall v (byte_values_complete v Hv)).
  unfold byte_str_shape in Hall.
  apply andb_prop in Hall as [Hall Hmax]. apply andb_prop in Hall as [Hdigits Hmin].
  apply Nat.leb_le in Hmin, Hmax. auto.
Qed.

Lemma digits_are_address_chars (s : str) :
  forallb is_ascii_digit s = true -> forallb is_address_char s = true.
Proof.
  intros H. rewrite forallb_forall in *. intros c Hc.
  unfold is_address_char. now rewrite (H c Hc).
Qed.

(** X3: whatever the validator returns is a plain dotted quad: ASCII digits
    and dots only, exactly three dots, between 7 and 15 characters. *)
Theorem validate_output_shape (raw_ip_v4 r : str) :
  _validate_ip_v4 raw_ip_v4 = Return r ->
  forallb is_address_char r = true
  /\ count_char dot r = 3%nat
  /\ (7 <= length r <= 15)%nat.
Proof.
  intros H. destruct (validate_return raw_ip_v4 r H) as [Hlen Hok].
  rewrite (validate_success raw_ip_v4 Hlen Hok) in H. inversion H as [Hr].
  clear H Hr.
  pose proof (segment_values_in_range _ Hok) as Hvals.
  destruct (split dot (strip raw_ip_v4)) as [|sa [|sb [|sc [|sd [|? ?]]]]];
    try discriminate.
  simpl map in *.
  inversion Hvals as [|? ? Ha Hvals1]; subst.
  inversion Hvals1 as [|? ? Hb Hvals2]; subst.
  inversion Hvals2 as [|? ? Hc Hvals3]; subst.
  inversion Hvals3 as [|? ? Hd _]; subst.
  destruct (py_str_byte_shape _ Ha) as [Hda Hla].
  destruct (py_str_byte_shape _ Hb) as [Hdb Hlb].
  destruct (py_str_byte_shape _ Hc) as [Hdc Hlc].
  destruct (py_str_byte_shape _ Hd) as [Hdd Hld].
  destruct (py_str_byte _ Ha) as (_ & Hna & _).
  destruct (py_str_byte _ Hb) as (_ & Hnb & _).
  destruct (py_str_byte _ Hc) as (_ & Hnc & _).
  destruct (py_str_byte _ Hd) as (_ & Hnd & _).
  change (lit ".") with [dot]. cbn [join].
  split; [|split].
  - rewrite !forallb_app. cbn [forallb].
    rewrite !digits_are_address_chars by assumption. reflexivity.
  - rewrite !count_char_app. cbn [count_char].
    rewrite !count_dots_no_dot by assumption. reflexivity.
  - rewrite !length_app. cbn [length]. lia.
Qed.

Lemma validate_output_shape_witness :
  forallb is_address_char (lit "1.2.3.4") = true
  /\ count_char dot (lit "1.2.3.4") = 3%nat
  /\ (7 <= length (lit "1.2.3.4") <= 15)%nat.
Proof.
  apply (validate_output_shape (lit " +01. 2 .0_3.004 ")). reflexivity.
Defined.

Lemma py_str_inj_on_bytes (vals vals' : list Z) :
  Forall (fun v => 0 <= v <= 255)%Z vals ->
  Forall (fun v => 0 <= v <= 255)%Z vals' ->
  map py_str vals = map py_str vals' -> vals = vals'.
Proof.
  intros Hvals. revert vals'.
  induction Hvals as [|v vals Hv Hvals IH]; intros [|v' vals'] Hvals' Heq;
    try discriminate; [reflexivity|].
  inversion Hvals' as [|? ? Hv' Hrest]; subst.
  simpl in Heq. injection Heq as Hhead Htail.
  f_equal; [|now apply IH].
  destruct (py_str_byte v Hv) as (Hint & _).
  destruct (py_str_byte v' Hv') as (Hint' & _).
  rewrite Hhead in Hint. congruence.
Qed.

(** X4: the validator loses nothing of the address: two accepted inputs get
    the same output exactly when their four segments parse to the same four
    integers. *)
Theorem validate_output_determines_bytes (a b ra rb : str) :
  _validate_ip_v4 a = Return ra -> _validate_ip_v4 b = Return rb ->
  (ra = rb <->
   map segment_value (split dot (strip a)) = map segment_value (split dot (strip b))).
Proof.
  intros Ha Hb.
  destruct (validate_return a ra Ha) as [Hlena Hoka].
  destruct (validate_return b rb Hb) as [Hlenb Hokb].
  rewrite (validate_success a Hlena Hoka) in Ha. inversion Ha as [Hra]. clear Ha.
  rewrite (validate_success b Hlenb Hokb) in Hb. inversion Hb as [Hrb]. clear Hb.
  pose proof (segment_values_in_range _ Hoka) as Hvalsa.
  pose proof (segment_values_in_range _ Hokb) as Hvalsb.
  set (va := map segment_value (split dot (strip a))) in *.
  set (vb := map segment_value (split dot (strip b))) in *.
  assert (Hsplit : forall vals, length vals = 4%nat ->
            Forall (fun v => 0 <= v <= 255)%Z vals ->
            split dot (join (lit ".") (map py_str vals)) = map py_str vals).
  { intros vals Hlen Hvals. apply split_join.
    - destruct vals; [discriminate | simpl; discriminate].
    - rewrite forallb_forall. intros p Hp. apply in_map_iff in Hp as (v & <- & Hv).
      rewrite Forall_forall in Hvals. now apply py_str_byte, Hvals. }
  split.
  - intros Heq. apply py_str_inj_on_bytes; trivial.
    rewrite <- (Hsplit va), <- (Hsplit vb), Heq; trivial;
      subst va vb; now rewrite length_map.
  - now intros ->.
Qed.

Lemma validate_output_determines_bytes_witness :
  map segment_value (split dot (strip (lit "010.0.0.1")))
  = map segment_value (split dot (strip (lit " 10.+0.0_0.1"))).
Proof.
  apply (validate_output_determines_bytes (lit "010.0.0.1") (lit " 10.+0.0_0.1")
           (lit "10.0.0.1") (lit "10.0.0.1")); reflexivity.
Defined.

Lemma scan_digits_nonneg (s : str) :
  forall p acc n v n' rest,
    (0 <= acc)%Z -> scan_digits s p acc n = Some (v, n', rest) -> (0 <= v)%Z.
Proof.
  induction s as [|c s IH]; cbn [scan_digits]; intros p acc n v n' rest Hacc H.
  - destruct p; [discriminate|]. now inversion H; subst.
  - destruct (c =? underscore).
    + destruct p; [discriminate|]. eauto.
    + destruct (int_digit c) as [d|].
      * eapply IH; [|exact H]. lia.
      * destruct p; [discriminate|]. now inversion H; subst.
Qed.

(** What [int] reads without a sign is not negative. *)
Lemma py_int_unsigned_nonneg (c : char) (d : N) (s : str) (v : Z) :
  int_digit c = Some d -> py_int (c :: s) = inr v -> (0 <= v)%Z.
Proof.
  intros Hd. destruct (digit_not_special c d Hd) as (Hp & Hm & Hu & _).
  unfold py_int. rewrite (skip_spaces_digit c d s Hd).
  unfold split_sign. rewrite Hp, Hm, Hu.
  destruct (scan_digits (c :: s) false 0%Z 0) as [[[v' n] rest]|] eqn:Hscan;
    [|discriminate].
  destruct (n =? 0); [discriminate|].
  destruct (int_max_str_digits <? n); [discriminate|].
  destruct (skip_spaces rest); [|discriminate].
  intros H. inversion H; subst.
  eapply scan_digits_nonneg; [|exact Hscan]. lia.
Qed.

(** X5: a minus sign is read as a sign, not refused as a character: a
    segment [-n] with [n] not zero, reached after valid segments, fails with
    the out-of-range error for the negative value, while [-0] is accepted as
    the byte 0. *)
Theorem validate_negative_segment (raw_ip_v4 : str) (pre : list str)
    (c : char) (d : N) (s : str) (post : list str) (v : Z) :
  length (split dot (strip raw_ip_v4)) = 4%nat ->
  split dot (strip raw_ip_v4) = pre ++ (minus_sign :: c :: s) :: post ->
  forallb segment_ok pre = true ->
  int_digit c = Some d -> py_int (c :: s) = inr v ->
  (v = 0%Z -> segment_ok (minus_sign :: c :: s) = true
              /\ segment_value (minus_sign :: c :: s) = 0%Z)
  /\ (v <> 0%Z ->
      (- v < 0)%Z
      /\ _validate_ip_v4 raw_ip_v4 = Raise (ValueError (ByteOutOfRange (- v) raw_ip_v4))).
Proof.
  intros Hlen Hsplit Hpre Hd Hv.
  pose proof (py_int_unsigned_nonneg c d s v Hd Hv) as Hnonneg.
  destruct (py_int_signed c d s v Hd Hv) as [_ Hminus].
  split.
  - intros ->. unfold segment_ok, segment_value. rewrite Hminus. auto.
  - intros Hnz. split; [lia|].
    rewrite (validate_first_bad _ _ _ _ Hlen Hsplit Hpre); unfold segment_ok;
      rewrite Hminus; [reflexivity|].
    apply andb_false_iff. left. apply Z.leb_gt. lia.
Qed.

Lemma validate_negative_segment_witness :
  _validate_ip_v4 (lit "10.-1.0.0")
  = Raise (ValueError (ByteOutOfRange (-1) (lit "10.-1.0.0")))
  /\ segment_ok (lit "-0") = true.
Proof.
  split.
  - apply (proj2 (validate_negative_segment (lit "10.-1.0.0")
                    [lit "10"] 0x31 1 [] [lit "0"; lit "0"] 1%Z
                    eq_refl eq_refl eq_refl eq_refl eq_refl)).
    discriminate.
  - apply (proj1 (validate_negative_segment (lit "10.-0.0.0")
                    [lit "10"] 0x30 0 [] [lit "0"; lit "0"] 0%Z
                    eq_refl eq_refl eq_refl eq_refl eq_refl)).
    reflexivity.
Defined.

Lemma parse_bytes_raise (raw_ip_v4 : str) (raw_bytes : list str) :
  forall parsed_bytes e,
    parse_bytes raw_ip_v4 raw_bytes parsed_bytes = Raise e ->
    exists ve, e = ValueError ve /\ value_error_raw ve = raw_ip_v4.
Proof.
  induction raw_bytes as [|seg raw_bytes IH]; simpl; intros parsed_bytes e H.
  - discriminate.
  - destruct (py_int seg) as [ie|v].
    + inversion H. eauto.
    + destruct (negb ((0 <=? v)%Z && (v <=? 255)%Z)).
      * inversion H. eauto.
      * eauto.
Qed.

(** X6: the validator fails with a [ValueError] and nothing else, and the
    error names the input exactly as it was passed in, with the white space
    that [strip] took off for the parsing. *)
Theorem validate_error_quotes_input (raw_ip_v4 : str) (e : exc) :
  _validate_ip_v4 raw_ip_v4 = Raise e ->
  exists ve, e = ValueError ve /\ value_error_raw ve = raw_ip_v4.
Proof.
  unfold _validate_ip_v4.
  destruct (negb (length (split dot (strip raw_ip_v4)) =? 4)%nat).
  - intros H. inversion H. eauto.
  - destruct (parse_bytes raw_ip_v4 _ []) as [l|e'] eqn:Hparse; [discriminate|].
    intros H. inversion H; subst. eapply parse_bytes_raise; eauto.
Qed.

Lemma validate_error_quotes_input_witness :
  exists ve, ValueError (ByteOutOfRange 256 (lit " 256.1.1.1 ")) = ValueError ve
             /\ value_error_raw ve = lit " 256.1.1.1 ".
Proof.
  apply (validate_error_quotes_input (lit " 256.1.1.1 ")). reflexivity.
Defined.

(** *** White space inside the address *)

Lemma py_int_read_signed (s : str) : py_int s = read_signed (skip_spaces s).
Proof. reflexivity. Qed.

Lemma int_space_stops (c : char) (w : str) :
  int_isspace c = true -> scan_stops (c :: w).
Proof.
  intros Hc. split.
  - destruct (c =? underscore) eqn:Hu; [|reflexivity].
    apply N.eqb_eq in Hu. subst c. discriminate.
  - destruct (int_digit c) as [d|] eqn:Hd; [|reflexivity].
    apply digit_not_int_space in Hd. congruence.
Qed.

Lemma int_blank_stops (w : str) : int_blank w = true -> scan_stops w.
Proof.
  destruct w as [|c w]; simpl; [trivial|].
  intros H. apply andb_prop in H as [Hc _]. now apply int_space_stops.
Qed.

Lemma scan_digits_at_stop (w : str) (acc : Z) (n : N) :
  scan_stops w -> scan_digits w false acc n = Some (acc, n, w).
Proof.
  destruct w as [|c w]; simpl; [reflexivity|].
  intros [Hu Hd]. now rewrite Hu, Hd.
Qed.

(** The digit scan reads a prefix and stops where it may; it reads the same
    prefix in front of any other stop. *)
Lemma scan_digits_stop (s : str) :
  forall p acc n v n' rest,
    scan_digits s p acc n = Some (v, n', rest) ->
    scan_stops rest
    /\ exists ds, s = ds ++ rest
         /\ forall w, scan_stops w -> scan_digits (ds ++ w) p acc n = Some (v, n', w).
Proof.
  induction s as [|c s IH]; cbn [scan_digits]; intros p acc n v n' rest H.
  - destruct p; [discriminate|]. inversion H; subst. split; [exact I|].
    exists []. split; [reflexivity|]. intros w Hw. now apply scan_digits_at_stop.
  - destruct (c =? underscore) eqn:Hu.
    + destruct p; [discriminate|].
      apply IH in H as (Hstop & ds & -> & Hds). split; [exact Hstop|].
      exists (c :: ds). split; [reflexivity|]. intros w Hw.
      cbn [app scan_digits]. rewrite Hu. now apply Hds.
    + destruct (int_digit c) as [d|] eqn:Hd.
      * apply IH in H as (Hstop & ds & -> & Hds). split; [exact Hstop|].
        exists (c :: ds). split; [reflexivity|]. intros w Hw.
        cbn [app scan_digits]. rewrite Hu, Hd. now apply Hds.
      * destruct p; [discriminate|]. inversion H; subst.
        split; [now split|].
        exists []. split; [reflexivity|]. intros w Hw.
        now apply scan_digits_at_stop.
Qed.

(** A scan that reads its whole string reads nothing or ends on a digit. *)
Lemma scan_digits_ends_on_digit (ds : str) :
  forall p acc n v n',
    scan_digits ds p acc n = Some (v, n', []) ->
    ds = [] \/ exists ds' c d, ds = ds' ++ [c] /\ int_digit c = Some d.
Proof.
  induction ds as [|c ds IH]; cbn [scan_digits]; intros p acc n v n' H.
  - now left.
  - right. destruct (c =? underscore) eqn:Hu.
    + destruct p; [discriminate|].
      destruct (IH _ _ _ _ _ H) as [->|(ds' & c' & d & -> & Hd)];
        [discriminate|].
      now exists (c :: ds'), c', d.
    + destruct (int_digit c) as [d|] eqn:Hd; [|destruct p; discriminate].
      destruct (IH _ _ _ _ _ H) as [->|(ds' & c' & d' & -> & Hd')].
      * now exists [], c, d.
      * now exists (c :: ds'), c', d'.
Qed.

Lemma skip_spaces_blank (w : str) : int_blank w = true -> skip_spaces w = [].
Proof.
  induction w as [|c w IH]; simpl; [trivial|].
  intros H. apply andb_prop in H as [Hc Hw]. rewrite Hc. auto.
Qed.

Lemma skip_spaces_app_blank (w s : str) :
  int_blank w = true -> skip_spaces (w ++ s) = skip_spaces s.
Proof.
  induction w as [|c w IH]; simpl; [trivial|].
  intros H. apply andb_prop in H as [Hc Hw]. rewrite Hc. auto.
Qed.

Lemma skip_spaces_app (s w : str) :
  skip_spaces s <> [] -> skip_spaces (s ++ w) = skip_spaces s ++ w.
Proof.
  induction s as [|c s IH]; simpl; [congruence|].
  destruct (int_isspace c); auto.
Qed.

Lemma int_blank_app (s t : str) :
  int_blank (s ++ t) = int_blank s && int_blank t.
Proof. apply forallb_app. Qed.

Lemma int_blank_all_space (w : str) : int_blank w = true -> all_space w = true.
Proof.
  unfold int_blank, all_space. rewrite !forallb_forall.
  intros H c Hc. now apply int_isspace_unicode, H.
Qed.

(** White space after a string that [int] reads changes nothing. *)
Lemma read_signed_app_blank (t w : str) (v : Z) :
  read_signed t = inr v -> int_blank w = true -> read_signed (t ++ w) = inr v.
Proof.
  unfold read_signed. intros H Hw.
  destruct (split_sign t) as [negative body] eqn:Hsign.
  assert (Hsign' : body <> [] -> split_sign (t ++ w) = (negative, body ++ w)).
  { intros Hbody. unfold split_sign in *. destruct t as [|c t].
    - inversion Hsign; subst. congruence.
    - cbn [app]. destruct (c =? plus_sign); [now inversion Hsign; subst|].
      destruct (c =? minus_sign); now inversion Hsign; subst. }
  destruct body as [|c body]; [discriminate|].
  rewrite Hsign' by discriminate. cbn [app].
  destruct (c =? underscore); [discriminate|].
  destruct (scan_digits (c :: body) false 0%Z 0) as [[[v' n] rest]|] eqn:Hscan;
    [|discriminate].
  apply scan_digits_stop in Hscan as (Hstop & ds & Hds & Hread).
  assert (Hblank : skip_spaces rest = [] -> int_blank rest = true)
    by apply skip_spaces_nil.
  destruct (n =? 0) eqn:Hn; [discriminate|].
  destruct (int_max_str_digits <? n) eqn:Hmax; [discriminate|].
  destruct (skip_spaces rest) eqn:Hrest; [|discriminate].
  specialize (Hblank eq_refl).
  change (c :: body ++ w) with ((c :: body) ++ w).
  rewrite Hds, <- app_assoc, Hread.
  - rewrite Hn, Hmax, skip_spaces_blank; [exact H|].
    now rewrite int_blank_app, Hblank, Hw.
  - apply int_blank_stops. now rewrite int_blank_app, Hblank, Hw.
Qed.

(** White space around a string that [int] reads changes nothing. *)
Lemma py_int_padded (w1 s w2 : str) (v : Z) :
  int_blank w1 = true -> int_blank w2 = true ->
  py_int s = inr v -> py_int (w1 ++ s ++ w2) = inr v.
Proof.
  intros Hw1 Hw2 Hs. rewrite py_int_read_signed in *.
  rewrite skip_spaces_app_blank by trivial.
  assert (Hne : skip_spaces s <> []).
  { intros Hnil. rewrite Hnil in Hs. discriminate. }
  rewrite skip_spaces_app by trivial. now apply read_signed_app_blank.
Qed.

Lemma split_sign_inv (t : str) (negative : bool) (body : str) :
  split_sign t = (negative, body) ->
  (t = body /\ negative = false
   /\ forall c tl, t = c :: tl -> (c =? plus_sign) = false /\ (c =? minus_sign) = false)
  \/ (t = plus_sign :: body /\ negative = false)
  \/ (t = minus_sign :: body /\ negative = true).
Proof.
  destruct t as [|x t]; cbn [split_sign].
  - intros H. inversion H. left. split; [reflexivity|]. split; [reflexivity|].
    intros c tl Hc. discriminate.
  - destruct (x =? plus_sign) eqn:Hp.
    + intros H. inversion H. apply N.eqb_eq in Hp. subst. right. left. now split.
    + destruct (x =? minus_sign) eqn:Hm; intros H; inversion H.
      * apply N.eqb_eq in Hm. subst. right. right. now split.
      * left. split; [reflexivity|]. split; [reflexivity|].
        intros c tl Hc. inversion Hc; subst. now split.
Qed.

(** A string that [int] reads is a core that ends on a digit, followed by
    white space; [int] reads the core alone to the same value. *)
Lemma read_signed_core (t : str) (v : Z) :
  read_signed t = inr v ->
  exists core c d w,
    t = (core ++ [c]) ++ w /\ int_digit c = Some d /\ int_blank w = true
    /\ read_signed (core ++ [c]) = inr v.
Proof.
  unfold read_signed. intros H.
  destruct (split_sign t) as [negative body] eqn:Hsign.
  destruct body as [|b body]; [discriminate|].
  destruct (b =? underscore) eqn:Hu; [discriminate|].
  destruct (scan_digits (b :: body) false 0%Z 0) as [[[v' n] rest]|] eqn:Hscan;
    [|discriminate].
  destruct (n =? 0) eqn:Hn; [discriminate|].
  destruct (int_max_str_digits <? n) eqn:Hmax; [discriminate|].
  destruct (skip_spaces rest) eqn:Hrest; [|discriminate].
  apply skip_spaces_nil in Hrest.
  apply scan_digits_stop in Hscan as (_ & ds & Hds & Hread).
  specialize (Hread [] I). rewrite app_nil_r in Hread.
  destruct (scan_digits_ends_on_digit _ _ _ _ _ _ Hread)
    as [->|(ds' & c & d & -> & Hd)].
  { cbn in Hread. inversion Hread; subst. now rewrite N.eqb_refl in Hn. }
  assert (Hhead : exists tl, ds' ++ [c] = b :: tl).
  { destruct ds' as [|x ds']; cbn in *; inversion Hds; subst; eauto. }
  destruct Hhead as (tl & Hhead).
  assert (Hcore : forall sign_part,
             split_sign (sign_part ++ ds' ++ [c]) = (negative, ds' ++ [c]) ->
             read_signed (sign_part ++ ds' ++ [c]) = inr v).
  { intros sign_part Hsp. unfold read_signed. rewrite Hsp, Hhead, Hu.
    rewrite <- Hhead, Hread, Hn, Hmax. exact H. }
  apply split_sign_inv in Hsign
    as [(Ht & Hneg & Hplain)|[(Ht & Hneg)|(Ht & Hneg)]]; subst t negative.
  - exists ds', c, d, rest. rewrite Hds. repeat split; trivial.
    apply (Hcore []). cbn [app]. rewrite Hhead.
    destruct (Hplain b body eq_refl) as [Hp Hm].
    unfold split_sign. now rewrite Hp, Hm.
  - exists (plus_sign :: ds'), c, d, rest. rewrite Hds. repeat split; trivial.
    now apply (Hcore [plus_sign]).
  - exists (minus_sign :: ds'), c, d, rest. rewrite Hds. repeat split; trivial.
    now apply (Hcore [minus_sign]).
Qed.

Lemma skip_spaces_head (s : str) (x : char) (r : str) :
  skip_spaces s = x :: r -> int_isspace x = false.
Proof.
  induction s as [|c s IH]; simpl; [discriminate|].
  destruct (int_isspace c) eqn:Hc; [exact IH|].
  intros H. inversion H; subst. exact Hc.
Qed.

Lemma rstrip_app (s t : str) :
  rstrip t <> [] -> rstrip (s ++ t) = s ++ rstrip t.
Proof.
  unfold rstrip. intros Ht. rewrite rev_app_distr, lstrip_app.
  - now rewrite rev_app_distr, rev_involutive.
  - intros Hnil. apply Ht. now rewrite Hnil.
Qed.

Lemma no_dot_rev (s : str) : no_dot (rev s) = no_dot s.
Proof.
  unfold no_dot. induction s as [|c s IH]; cbn [rev forallb]; [trivial|].
  rewrite forallb_app. cbn [forallb]. rewrite andb_true_r, andb_comm.
  f_equal. exact IH.
Qed.

Lemma no_dot_rstrip (s : str) : no_dot s = true -> no_dot (rstrip s) = true.
Proof.
  intros H. unfold rstrip. rewrite no_dot_rev. apply no_dot_lstrip.
  now rewrite no_dot_rev.
Qed.

(** Where [int] succeeds, it reads the same value once [rstrip] has taken
    the trailing white space off. *)
Lemma py_int_rstrip (s : str) (v : Z) :
  py_int s = inr v -> py_int (rstrip s) = inr v /\ rstrip s <> [].
Proof.
  intros H. rewrite py_int_read_signed in H.
  destruct (skip_spaces_prefix s) as (w1 & Hs & Hw1).
  destruct (read_signed_core _ _ H) as (core & c & d & w & Ht & Hd & Hw & Hcore).
  assert (Hc : Py_UNICODE_ISSPACE c = false).
  { destruct (Py_UNICODE_ISSPACE c) eqn:Hsp; [|reflexivity].
    apply unicode_space_not_digit in Hsp. congruence. }
  assert (Hrstrip : rstrip s = (w1 ++ core) ++ [c]).
  { rewrite Hs, Ht.
    replace (w1 ++ (core ++ [c]) ++ w) with (((w1 ++ core) ++ [c]) ++ w)
      by (now rewrite <- !app_assoc).
    rewrite rstrip_app_space by now apply int_blank_all_space.
    now apply rstrip_snoc. }
  rewrite Hrstrip. split; [|now destruct (w1 ++ core)].
  rewrite py_int_read_signed, <- app_assoc, skip_spaces_app_blank by exact Hw1.
  assert (Hhead : skip_spaces (core ++ [c]) = core ++ [c]).
  { destruct core as [|x core]; cbn [app] in *.
    - apply (skip_spaces_digit c d []). exact Hd.
    - cbn [skip_spaces].
      now rewrite (skip_spaces_head s x ((core ++ [c]) ++ w) Ht). }
  now rewrite Hhead.
Qed.

Lemma last_segment_apart (x s2 s3 s4 : str) :
  x ++ dot :: s2 ++ dot :: s3 ++ dot :: s4
  = (x ++ dot :: s2 ++ dot :: s3 ++ [dot]) ++ s4.
Proof.
  rewrite <- app_assoc. cbn [app]. rewrite <- app_assoc. cbn [app].
  rewrite <- app_assoc. reflexivity.
Qed.

(** Four segments that the loop accepts make an address that the validator
    accepts, whatever white space they carry. *)
Lemma validate_four_segments (s1 s2 s3 s4 : str) :
  segment_ok s1 = true -> segment_ok s2 = true ->
  segment_ok s3 = true -> segment_ok s4 = true ->
  _validate_ip_v4 (s1 ++ dot :: s2 ++ dot :: s3 ++ dot :: s4)
  = Return (join (lit ".") (map py_str (map segment_value [s1; s2; s3; s4]))).
Proof.
  intros H1 H2 H3 H4.
  destruct (segment_ok_value s1 H1) as [Hint1 Hrange1].
  destruct (segment_ok_value s4 H4) as [Hint4 Hrange4].
  destruct (py_int_lstrip s1 _ Hint1) as [Hl1 Hne1].
  destruct (py_int_rstrip s4 _ Hint4) as [Hr4 Hne4].
  pose proof (py_int_of_lstrip s1 _ Hint1) as Hl1'.
  assert (Hstrip : strip (s1 ++ dot :: s2 ++ dot :: s3 ++ dot :: s4)
                   = lstrip s1 ++ dot :: s2 ++ dot :: s3 ++ dot :: rstrip s4).
  { unfold strip. rewrite lstrip_app by congruence.
    rewrite last_segment_apart, rstrip_app by trivial.
    now rewrite <- last_segment_apart. }
  assert (Hsplit : split dot (strip (s1 ++ dot :: s2 ++ dot :: s3 ++ dot :: s4))
                   = [lstrip s1; s2; s3; rstrip s4]).
  { rewrite Hstrip.
    rewrite !split_app_sep; auto using segment_ok_no_dot, no_dot_lstrip.
    now rewrite split_no_sep by auto using segment_ok_no_dot, no_dot_rstrip. }
  assert (Hfirst : segment_value (lstrip s1) = segment_value s1)
    by (unfold segment_value; now rewrite Hl1', Hint1).
  assert (Hlast : segment_value (rstrip s4) = segment_value s4)
    by (unfold segment_value; now rewrite Hr4, Hint4).
  rewrite validate_success; rewrite Hsplit.
  - cbn [map]. now rewrite Hfirst, Hlast.
  - reflexivity.
  - cbn [forallb]. rewrite H2, H3.
    unfold segment_ok. rewrite Hl1', Hr4.
    replace ((0 <=? segment_value s1)%Z && (segment_value s1 <=? 255)%Z) with true
      by (symmetry; apply andb_true_intro; lia).
    replace ((0 <=? segment_value s4)%Z && (segment_value s4 <=? 255)%Z) with true
      by (symmetry; apply andb_true_intro; lia).
    reflexivity.
Qed.

Lemma segment_ok_padded (w1 s w2 : str) :
  int_blank w1 = true -> int_blank w2 = true -> segment_ok s = true ->
  segment_ok (w1 ++ s ++ w2) = true
  /\ segment_value (w1 ++ s ++ w2) = segment_value s.
Proof.
  intros Hw1 Hw2 Hs. destruct (segment_ok_value s Hs) as [Hint Hrange].
  pose proof (py_int_padded w1 s w2 _ Hw1 Hw2 Hint) as Hpad.
  unfold segment_ok, segment_value. rewrite Hpad, Hint.
  split; [apply andb_true_intro; lia | reflexivity].
Qed.

(** X7: white space inside the address is let through: when each of four
    segments parses to a byte, the validator accepts them joined by dots also
    with blanks (space, tab, newline and the like) put before and after any
    of the segments, and returns the same canonical address as without. *)
Theorem validate_ignores_blanks_around_segments
    (a b c d la ra lb rb lc rc ld rd : str) :
  segment_ok a = true -> segment_ok b = true ->
  segment_ok c = true -> segment_ok d = true ->
  int_blank la = true -> int_blank ra = true ->
  int_blank lb = true -> int_blank rb = true ->
  int_blank lc = true -> int_blank rc = true ->
  int_blank ld = true -> int_blank rd = true ->
  _validate_ip_v4 ((la ++ a ++ ra) ++ dot :: (lb ++ b ++ rb) ++ dot
                   :: (lc ++ c ++ rc) ++ dot :: (ld ++ d ++ rd))
  = Return (join (lit ".") (map py_str (map segment_value [a; b; c; d])))
  /\ _validate_ip_v4 (a ++ dot :: b ++ dot :: c ++ dot :: d)
     = Return (join (lit ".") (map py_str (map segment_value [a; b; c; d]))).
Proof.
  intros Ha Hb Hc Hd Hla Hra Hlb Hrb Hlc Hrc Hld Hrd.
  destruct (segment_ok_padded la a ra Hla Hra Ha) as [Hpa Hva].
  destruct (segment_ok_padded lb b rb Hlb Hrb Hb) as [Hpb Hvb].
  destruct (segment_ok_padded lc c rc Hlc Hrc Hc) as [Hpc Hvc].
  destruct (segment_ok_padded ld d rd Hld Hrd Hd) as [Hpd Hvd].
  split.
  - rewrite validate_four_segments by assumption.
    cbn [map]. now rewrite Hva, Hvb, Hvc, Hvd.
  - now apply validate_four_segments.
Qed.

Lemma validate_ignores_blanks_around_segments_witness :
  _validate_ip_v4 (lit "10 . 0.0" ++ [0x09] ++ lit ".1") = Return (lit "10.0.0.1").
Proof.
  apply (proj1 (validate_ignores_blanks_around_segments
                  (lit "10") (lit "0") (lit "0") (lit "1")
                  [] (lit " ") (lit " ") [] [] [0x09] [] []
                  eq_refl eq_refl eq_refl eq_refl
                  eq_refl eq_refl eq_refl eq_refl
                  eq_refl eq_refl eq_refl eq_refl)).
Defined.

(** ** The resolver *)

(** X8: an address that the resolver returns is the validated text of an
    answer whose status is not a 4xx or 5xx one, and it is canonical:
    validating it again returns it unchanged. *)
Theorem resolver_returns_canonical (w : World) (public_ip : str) :
  snd (get_public_ip_v4 w) = Return public_ip ->
  exists response,
    ipify w = Return response
    /\ ((status_code response < 400)%Z \/ (600 <= status_code response)%Z)
    /\ _validate_ip_v4 (text response) = Return public_ip
    /\ _validate_ip_v4 public_ip = Return public_ip.
Proof.
  unfold get_public_ip_v4, call, lift, ret, bind, raise_for_status.
  destruct (ipify w) as [response|e]; [|discriminate].
  destruct ((400 <=? status_code response)%Z && (status_code response <? 600)%Z)
    eqn:Hstatus; [discriminate|].
  destruct (_validate_ip_v4 (text response)) as [ip|e] eqn:Hvalid; [|discriminate].
  cbn. intros H. inversion H; subst. exists response.
  split; [reflexivity|]. split; [|split; [exact Hvalid|]].
  - apply andb_false_iff in Hstatus as [H1|H1].
    + left. now apply Z.leb_gt.
    + right. now apply Z.ltb_ge.
  - destruct (validate_return _ _ Hvalid) as [Hlen Hok].
    rewrite (validate_success _ Hlen Hok) in Hvalid. inversion Hvalid as [Hip].
    apply validate_canonical.
    + now rewrite length_map.
    + now apply segment_values_in_range.
Qed.

Lemma resolver_returns_canonical_witness :
  exists response,
    ipify world_padded_answer = Return response
    /\ ((status_code response < 400)%Z \/ (600 <= status_code response)%Z)
    /\ _validate_ip_v4 (text response) = Return (lit "203.0.113.7")
    /\ _validate_ip_v4 (lit "203.0.113.7") = Return (lit "203.0.113.7").
Proof.
  apply (resolver_returns_canonical world_padded_answer). reflexivity.
Defined.

(** X9: the resolver makes one request and fails in one of three ways: with
    the exception of the request itself; with an [HTTPError] for a 4xx or 5xx
    status, whatever the body, a valid address included; or, the status
    passed, with the [ValueError] of the validator, which quotes the body as
    received. *)
Theorem resolver_failure_modes (w : World) (e : exc) :
  snd (get_public_ip_v4 w) = Raise e ->
  fst (get_public_ip_v4 w) = [HttpGet (lit "https://api.ipify.org")]
  /\ (ipify w = Raise e
      \/ (exists response,
             ipify w = Return response
             /\ (400 <= status_code response < 600)%Z
             /\ e = HTTPError (status_code response))
      \/ (exists response ve,
             ipify w = Return response
             /\ ~ (400 <= status_code response < 600)%Z
             /\ _validate_ip_v4 (text response) = Raise e
             /\ e = ValueError ve /\ value_error_raw ve = text response)).
Proof.
  intros H. split; [apply get_public_ip_v4_trace|]. revert H.
  unfold get_public_ip_v4, call, lift, ret, bind, raise_for_status.
  destruct (ipify w) as [response|e0]; [|intros [= ->]; now left].
  destruct ((400 <=? status_code response)%Z && (status_code response <? 600)%Z)
    eqn:Hstatus.
  - intros [= <-]. right. left. exists response.
    apply andb_prop in Hstatus as [H1 H2].
    apply Z.leb_le in H1. apply Z.ltb_lt in H2. auto.
  - destruct (_validate_ip_v4 (text response)) as [ip|e0] eqn:Hvalid;
      [discriminate|].
    intros [= ->]. right. right.
    assert (Hquote : exists ve, e = ValueError ve /\ value_error_raw ve = text response).
    { revert Hvalid. unfold _validate_ip_v4.
      destruct (negb (length (split dot (strip (text response))) =? 4)%nat).
      - intros [= <-]. eauto.
      - destruct (parse_bytes (text response) _ []) as [l|e'] eqn:Hparse;
          [discriminate|].
        intros [= ->]. eapply parse_bytes_raise; eauto. }
    destruct Hquote as (ve & Hve & Hraw). exists response, ve.
    repeat split; trivial.
    intros [H1 H2]. apply andb_false_iff in Hstatus as [H|H].
    + apply Z.leb_gt in H. lia.
    + apply Z.ltb_ge in H. lia.
Qed.

Lemma resolver_failure_modes_witness :
  fst (get_public_ip_v4 world_echo_down) = [HttpGet (lit "https://api.ipify.org")].
Proof.
  apply (resolver_failure_modes world_echo_down (HTTPError 503)). reflexivity.
Defined.

(** ** The run as a whole *)

Ltac unfold_run :=
  unfold main_body, update_route_53_record_set, load_record_info,
    get_boto3_session, call, log, lift;
  rewrite get_public_ip_v4_eq.

(** A run either comes to its upsert, every stage before it having
    succeeded, or stops with an exception before any change is requested. *)
Lemma main_body_dichotomy (w : World) :
  (exists record_info public_ip client zones zone zones' records,
      hosted_zone_config w = Return record_info
      /\ snd (get_public_ip_v4 w) = Return public_ip
      /\ aws_config_session w = Return tt
      /\ route53 w = Return client
      /\ list_hosted_zones_by_name client = Return zones
      /\ filter (fun hz => str_eqb (hz_Name hz) (target_hosted_zone_name record_info))
                zones = zone :: zones'
      /\ list_resource_record_sets client (hz_Id zone) = Return records)
  \/ (exists e, snd (main_body w) = Raise e
                /\ forallb before_upsert (fst (main_body w)) = true).
Proof.
  destruct (hosted_zone_config w) as [record_info|e] eqn:Hcfg.
  2: { right. exists e. unfold_run. rewrite Hcfg. now cbn. }
  destruct (snd (get_public_ip_v4 w)) as [public_ip|e] eqn:Hip.
  2: { right. exists e. unfold_run. rewrite Hcfg, Hip. now cbn. }
  destruct (aws_config_session w) as [[]|e] eqn:Hsession.
  2: { right. exists e. unfold_run. rewrite Hcfg, Hip, Hsession. now cbn. }
  destruct (route53 w) as [client|e] eqn:Hclient.
  2: { right. exists e. unfold_run. rewrite Hcfg, Hip, Hsession, Hclient. now cbn. }
  destruct (list_hosted_zones_by_name client) as [zones|e] eqn:Hzones.
  2: { right. exists e. unfold_run.
       rewrite Hcfg, Hip, Hsession, Hclient. cbn [bind app]. rewrite Hzones.
       now cbn. }
  destruct (filter (fun hz => str_eqb (hz_Name hz) (target_hosted_zone_name record_info))
                   zones) as [|zone zones'] eqn:Hzone.
  { right. exists StopIteration.
    rewrite (main_body_zone_missing w record_info public_ip client zones
               Hcfg Hip Hsession Hclient Hzones Hzone).
    now cbn. }
  destruct (list_resource_record_sets client (hz_Id zone)) as [records|e] eqn:Hrecords.
  2: { right. exists e. unfold_run.
       rewrite Hcfg, Hip, Hsession, Hclient. cbn [bind app]. rewrite Hzones.
       cbn [bind app]. rewrite Hzone. cbn [bind app next]. rewrite Hrecords.
       now cbn. }
  left. exists record_info, public_ip, client, zones, zone, zones', records.
  repeat split; assumption.
Qed.

Lemma change_calls_main (w : World) :
  change_calls (fst (main w)) = change_calls (fst (main_body w)).
Proof.
  unfold main. destruct (main_body w) as [t [u|e]]; [reflexivity|].
  destruct (is_Exception e); [|reflexivity].
  cbn [fst]. unfold change_calls. rewrite filter_app. cbn. apply app_nil_r.
Qed.

Lemma before_upsert_no_change (t : trace) :
  forallb before_upsert t = true ->
  change_calls t = [] /\ ~ In (Log INFO MsgUpdated) t.
Proof.
  induction t as [|ev t IH]; cbn [forallb]; [intros _; split; [reflexivity | tauto]|].
  intros H. apply andb_prop in H as [Hev Ht]. destruct (IH Ht) as [Hcalls Hnot].
  split.
  - unfold change_calls in *. cbn [filter]. rewrite Hcalls.
    now destruct ev.
  - intros [->|Hin]; [discriminate | tauto].
Qed.

(** What the run has in its trace is in the trace of the [try] block, or is
    the critical entry of the handler. *)
Lemma main_trace_inv (w : World) (ev : event) :
  In ev (fst (main w)) ->
  In ev (fst (main_body w)) \/ exists e, ev = Log CRITICAL (MsgUnhandledException e).
Proof.
  unfold main. destruct (main_body w) as [t [u|e]]; cbn [fst]; [tauto|].
  destruct (is_Exception e); cbn [fst]; [|tauto].
  intros H. apply in_app_or in H as [H|[<-|[]]]; eauto.
Qed.

(** X10: no run changes more than it is configured to: the trace of any run
    holds no [change_resource_record_sets] call at all, or exactly one, and
    that one is the upsert of the configured record with the resolved
    address, in the first listed zone of the configured name, made after
    every earlier stage has succeeded. *)
Theorem run_makes_at_most_the_configured_change (w : World) :
  change_calls (fst (main w)) = []
  \/ exists record_info public_ip client zones zone zones' records,
       hosted_zone_config w = Return record_info
       /\ snd (get_public_ip_v4 w) = Return public_ip
       /\ aws_config_session w = Return tt
       /\ route53 w = Return client
       /\ list_hosted_zones_by_name client = Return zones
       /\ filter (fun hz => str_eqb (hz_Name hz) (target_hosted_zone_name record_info))
                 zones = zone :: zones'
       /\ list_resource_record_sets client (hz_Id zone) = Return records
       /\ change_calls (fst (main w))
          = [ChangeResourceRecordSets (hz_Id zone)
               (upsert_batch (target_record_set_name record_info)
                  (target_record_set_type record_info)
                  (target_record_set_ttl record_info) public_ip)].
Proof.
  destruct (main_body_dichotomy w)
    as [(record_info & public_ip & client & zones & zone & zones' & records
         & Hcfg & Hip & Hsession & Hclient & Hzones & Hzone & Hrecords)
       |(e & _ & Hbefore)].
  - right. exists record_info, public_ip, client, zones, zone, zones', records.
    repeat (split; [assumption|]).
    exact (main_upsert_calls w record_info public_ip client zones
             Hcfg Hip Hsession Hclient Hzones zone zones' records Hzone Hrecords).
  - left. rewrite change_calls_main. now apply before_upsert_no_change.
Qed.

(** X11: the line "Target record set updated!" is logged exactly in the runs
    whose [try] block runs to its end; a run that fails at any stage, the
    upsert included, does not log it. *)
Theorem updated_is_logged_iff_run_succeeds (w : World) :
  In (Log INFO MsgUpdated) (fst (main w)) <-> snd (main_body w) = Return tt.
Proof.
  destruct (main_body_dichotomy w)
    as [(record_info & public_ip & client & zones & zone & zones' & records
         & Hcfg & Hip & Hsession & Hclient & Hzones & Hzone & Hrecords)
       |(e & Hraise & Hbefore)].
  - pose proof (main_body_upsert w record_info public_ip client zones
                  Hcfg Hip Hsession Hclient Hzones zone zones' records
                  Hzone Hrecords) as Hbody.
    destruct (change_resource_record_sets client (hz_Id zone) _) as [[]|e].
    + split; [intros _; rewrite Hbody; reflexivity|].
      intros _. apply main_keeps_body_trace. rewrite Hbody. cbn [fst].
      apply in_or_app. right. apply in_or_app. right. now left.
    + split; [|rewrite Hbody; discriminate].
      intros Hin. exfalso.
      apply main_trace_inv in Hin as [Hin|(e' & He')]; [|discriminate].
      rewrite Hbody in Hin. cbn [fst] in Hin. rewrite app_nil_r in Hin.
      apply in_app_or in Hin as [Hin|Hin];
        cbn [In] in Hin; intuition discriminate.
  - split; [|rewrite Hraise; discriminate].
    intros Hin. exfalso.
    apply main_trace_inv in Hin as [Hin|(e' & He')]; [|discriminate].
    now apply before_upsert_no_change in Hbefore as [_ Hnot].
Qed.



Lemma updated_is_logged_iff_run_succeeds_witness :
  In (Log INFO MsgUpdated) (fst (main world_up_to_date)).
Proof.
  apply (proj2 (updated_is_logged_iff_run_succeeds world_up_to_date)).
  reflexivity.
Defined.

Lemma filter_first {A} (f : A -> bool) (pre : list A) (x : A) (post : list A) :
  (forall y, In y pre -> f y = false) -> f x = true ->
  filter f (pre ++ x :: post) = x :: filter f post.
Proof.
  intros Hpre Hx. rewrite filter_app, (filter_none f pre Hpre).
  cbn [app filter]. now rewrite Hx.
Qed.

Lemma filter_names_first {A} (name : A -> str) (target : str)
    (pre : list A) (x : A) (post : list A) :
  (forall y, In y pre -> name y <> target) -> name x = target ->
  filter (fun y => str_eqb (name y) target) (pre ++ x :: post)
  = x :: filter (fun y => str_eqb (name y) target) post.
Proof.
  intros Hpre Hx. apply filter_first.
  - intros y Hy. destruct (str_eqb (name y) target) eqn:Heq; [|reflexivity].
    apply str_eqb_eq in Heq. now apply Hpre in Hy.
  - now apply str_eqb_eq.
Qed.

(** X13: when several listed hosted zones have the configured name, the run
    works on the first of them in the order listed: it lists the record sets
    of that zone and of no other, and sends its one change there, whatever
    zones follow. *)
Theorem first_matching_zone_is_used (w : World) (record_info : RecordInfo)
    (public_ip : str) (client : Route53Client)
    (pre : list HostedZone) (zone : HostedZone) (post : list HostedZone)
    (records : list ResourceRecordSet) :
  hosted_zone_config w = Return record_info ->
  snd (get_public_ip_v4 w) = Return public_ip ->
  aws_config_session w = Return tt ->
  route53 w = Return client ->
  list_hosted_zones_by_name client = Return (pre ++ zone :: post) ->
  (forall hz, In hz pre -> hz_Name hz <> target_hosted_zone_name record_info) ->
  hz_Name zone = target_hosted_zone_name record_info ->
  list_resource_record_sets client (hz_Id zone) = Return records ->
  list_record_sets_calls (fst (main w)) = [ListResourceRecordSets (hz_Id zone)]
  /\ change_calls (fst (main w))
     = [ChangeResourceRecordSets (hz_Id zone)
          (upsert_batch (target_record_set_name record_info)
             (target_record_set_type record_info)
             (target_record_set_ttl record_info) public_ip)].
Proof.
  intros Hcfg Hip Hsession Hclient Hzones Hpre Hzone Hrecords.
  pose proof (filter_names_first hz_Name _ pre zone post Hpre Hzone) as Hfirst.
  split.
  - unfold main.
    rewrite (main_body_upsert w record_info public_ip client _
               Hcfg Hip Hsession Hclient Hzones zone _ records Hfirst Hrecords).
    destruct (change_resource_record_sets client (hz_Id zone) _) as [u|e];
      [|destruct (is_Exception e)]; reflexivity.
  - exact (main_upsert_calls w record_info public_ip client _
             Hcfg Hip Hsession Hclient Hzones zone _ records Hfirst Hrecords).
Qed.

Lemma first_matching_zone_is_used_witness :
  list_record_sets_calls (fst (main world_two_zones))
  = [ListResourceRecordSets (lit "/hostedzone/Z1")]
  /\ change_calls (fst (main world_two_zones))
     = [ChangeResourceRecordSets (lit "/hostedzone/Z1")
          (upsert_batch (lit "home.example.org.") (lit "A") 300 (lit "203.0.113.7"))].
Proof.
  apply (first_matching_zone_is_used world_two_zones example_record_info
           (lit "203.0.113.7")
           (example_client [other_zone; example_zone; second_zone] [] (Return tt))
           [other_zone] example_zone [second_zone] []);
    try reflexivity.
  intros hz [<-|[]]. discriminate.
Defined.

(** X14: a run that cannot load its record configuration makes no request
    at all, and a run that cannot get a valid public address (the request
    fails, the status is an error, or the text is no IPv4 address) never
    turns to AWS: it reads no credentials, creates no client and calls
    Route 53 not once; the trace ends with the critical entry. *)
Theorem run_stops_before_aws (w : World) (e : exc) :
  is_Exception e = true ->
  (hosted_zone_config w = Raise e ->
   fst (main w)
   = [ Log INFO MsgRunning;
       OpenConfig BASE_CONFIG_PATH HOSTED_ZONE_CONFIG_FILENAME;
       Log CRITICAL (MsgUnhandledException e) ])
  /\ (forall record_info,
        hosted_zone_config w = Return record_info ->
        snd (get_public_ip_v4 w) = Raise e ->
        fst (main w)
        = [ Log INFO MsgRunning;
            OpenConfig BASE_CONFIG_PATH HOSTED_ZONE_CONFIG_FILENAME;
            HttpGet (lit "https://api.ipify.org");
            Log CRITICAL (MsgUnhandledException e) ]).
Proof.
  intros He. split.
  - intros Hcfg. unfold main. unfold_run. rewrite Hcfg. cbn [bind app].
    now rewrite He.
  - intros record_info Hcfg Hip. unfold main. unfold_run. rewrite Hcfg, Hip.
    cbn [bind app]. now rewrite He.
Qed.

Lemma run_stops_before_aws_witness :
  fst (main world_bad_answer)
  = [ Log INFO MsgRunning;
      OpenConfig BASE_CONFIG_PATH HOSTED_ZONE_CONFIG_FILENAME;
      HttpGet (lit "https://api.ipify.org");
      Log CRITICAL
        (MsgUnhandledException
           (ValueError (BytesCountMismatch 1 (lit "<html>busy</html>")))) ].
Proof.
  apply (proj2 (run_stops_before_aws world_bad_answer
                  (ValueError (BytesCountMismatch 1 (lit "<html>busy</html>")))
                  eq_refl)
           example_record_info); reflexivity.
Defined.

(** X15: when record sets of the configured name are listed, the first of
    them is the one logged as the target record set, and the request that
    follows is the same upsert as for an absent record: type, TTL and value
    come from the configuration and the resolver, not from the record
    found. *)
Theorem existing_record_is_logged_not_compared (w : World) (record_info : RecordInfo)
    (public_ip : str) (client : Route53Client) (zones : list HostedZone)
    (zone : HostedZone) (zones' : list HostedZone)
    (pre : list ResourceRecordSet) (record : ResourceRecordSet)
    (post : list ResourceRecordSet) :
  hosted_zone_config w = Return record_info ->
  snd (get_public_ip_v4 w) = Return public_ip ->
  aws_config_session w = Return tt ->
  route53 w = Return client ->
  list_hosted_zones_by_name client = Return zones ->
  filter (fun hz => str_eqb (hz_Name hz) (target_hosted_zone_name record_info)) zones
  = zone :: zones' ->
  list_resource_record_sets client (hz_Id zone) = Return (pre ++ record :: post) ->
  (forall r, In r pre -> Name r <> target_record_set_name record_info) ->
  Name record = target_record_set_name record_info ->
  filter is_log_event (fst (main_body w))
  = [ Log INFO MsgRunning;
      Log INFO (MsgIPv4Is public_ip);
      Log DEBUG (MsgFoundHostedZones (length zones));
      Log INFO (MsgTargetHostedZone zone);
      Log DEBUG (MsgFoundRecordSets (length (pre ++ record :: post)));
      Log INFO (MsgTargetRecordSet (Some record)) ]
    ++ match snd (main_body w) with
       | Return _ => [Log INFO MsgUpdated]
       | Raise _ => []
       end
  /\ change_calls (fst (main w))
     = [ChangeResourceRecordSets (hz_Id zone)
          (upsert_batch (target_record_set_name record_info)
             (target_record_set_type record_info)
             (target_record_set_ttl record_info) public_ip)].
Proof.
  intros Hcfg Hip Hsession Hclient Hzones Hzone Hrecords Hpre Hrecord.
  split.
  - rewrite (main_body_upsert w record_info public_ip client zones
               Hcfg Hip Hsession Hclient Hzones zone zones' _ Hzone Hrecords).
    rewrite (filter_names_first Name _ pre record post Hpre Hrecord).
    cbn [fst snd next_or_None].
    destruct (change_resource_record_sets client (hz_Id zone) _) as [u|e];
      reflexivity.
  - exact (main_upsert_calls w record_info public_ip client zones
             Hcfg Hip Hsession Hclient Hzones zone zones' _ Hzone Hrecords).
Qed.

Lemma existing_record_is_logged_not_compared_witness :
  change_calls (fst (main world_up_to_date))
  = [ChangeResourceRecordSets (lit "/hostedzone/Z1")
       (upsert_batch (lit "home.example.org.") (lit "A") 300 (lit "203.0.113.7"))]
  /\ In (Log INFO (MsgTargetRecordSet (Some current_record)))
        (filter is_log_event (fst (main_body world_up_to_date))).
Proof.
  destruct (existing_record_is_logged_not_compared world_up_to_date
              example_record_info (lit "203.0.113.7")
              (example_client [example_zone] [other_record; current_record]
                 (Return tt))
              [example_zone] example_zone []
              [other_record] current_record [])
    as [Hlog Hcalls]; try reflexivity.
  - intros r [<-|[]]. discriminate.
  - split; [exact Hcalls|]. rewrite Hlog. cbn. tauto.
Defined.

(** ** Loading the record configuration *)

Lemma dict_get_none (key : str) (items : list (str * py_value)) :
  dict_get key items = None <-> ~ In key (map fst items).
Proof.
  induction items as [|[k v] items IH]; cbn [dict_get map fst In]; [tauto|].
  destruct (str_eqb k key) eqn:Heq.
  - apply str_eqb_eq in Heq. split; [discriminate | tauto].
  - rewrite IH. split; [|tauto].
    intros Hnot [Hk|Hin]; [|tauto].
    subst k. assert (Hrefl : str_eqb key key = true) by now apply str_eqb_eq.
    congruence.
Qed.

Lemma is_field_iff (key : str) :
  existsb (str_eqb key) RecordInfo_fields = true <-> In key RecordInfo_fields.
Proof.
  rewrite existsb_exists. split.
  - intros (f & Hf & Heq). apply str_eqb_eq in Heq. now subst.
  - intros H. exists key. split; [exact H | now apply str_eqb_eq].
Qed.

(** X16: the record configuration loads exactly when the document is a JSON
    object whose keys are all fields of [RecordInfo] and which has both
    [target_hosted_zone_name] and [target_record_set_name]; a missing
    required key, a key that is no field (a misspelt one), or a document
    that is no object is a [TypeError], and a failure to read or decode the
    file is passed on.  On success the given values are kept as they are,
    of whatever type, and an absent [target_record_set_type] or
    [target_record_set_ttl] is ['A'] or [300]. *)
Theorem load_record_info_outcome (parsed_record_info : result py_value) :
  (forall e, parsed_record_info = Raise e ->
             load_record_info_from parsed_record_info = Raise e)
  /\ (forall v, parsed_record_info = Return v ->
                (forall items, v <> PyDict items) ->
                load_record_info_from parsed_record_info = Raise TypeError)
  /\ (forall items, parsed_record_info = Return (PyDict items) ->
        ((exists key, In key (map fst items) /\ ~ In key RecordInfo_fields)
         \/ ~ In (lit "target_hosted_zone_name") (map fst items)
         \/ ~ In (lit "target_record_set_name") (map fst items)) ->
        load_record_info_from parsed_record_info = Raise TypeError)
  /\ (forall items, parsed_record_info = Return (PyDict items) ->
        (forall key, In key (map fst items) -> In key RecordInfo_fields) ->
        In (lit "target_hosted_zone_name") (map fst items) ->
        In (lit "target_record_set_name") (map fst items) ->
        exists o,
          load_record_info_from parsed_record_info = Return o
          /\ dict_get (lit "target_hosted_zone_name") items
             = Some (obj_target_hosted_zone_name o)
          /\ dict_get (lit "target_record_set_name") items
             = Some (obj_target_record_set_name o)
          /\ obj_target_record_set_type o
             = match dict_get (lit "target_record_set_type") items with
               | Some v => v
               | None => PyStr (lit "A")
               end
          /\ obj_target_record_set_ttl o
             = match dict_get (lit "target_record_set_ttl") items with
               | Some v => v
               | None => PyInt 300
               end).
Proof.
  split; [|split; [|split]].
  - now intros e ->.
  - intros v -> Hv. destruct v; try reflexivity. now destruct (Hv items).
  - intros items -> Hbad. cbn [load_record_info_from]. unfold RecordInfo_init.
    destruct (forallb _ items) eqn:Hkeys; [|reflexivity]. cbn [negb].
    destruct Hbad as [(key & Hin & Hnot)|[Hzone|Hname]].
    + exfalso. apply Hnot. rewrite forallb_forall in Hkeys.
      apply in_map_iff in Hin as ([k v] & <- & Hkv).
      now apply is_field_iff, (Hkeys (k, v)).
    + apply dict_get_none in Hzone. now rewrite Hzone.
    + apply dict_get_none in Hname. rewrite Hname.
      now destruct (dict_get (lit "target_hosted_zone_name") items).
  - intros items -> Hkeys Hzone Hname.
    cbn [load_record_info_from]. unfold RecordInfo_init.
    assert (Hall : forallb (fun kv => existsb (str_eqb (fst kv)) RecordInfo_fields)
                           items = true).
    { rewrite forallb_forall. intros [k v] Hkv. apply is_field_iff, Hkeys.
      apply in_map_iff. now exists (k, v). }
    rewrite Hall. cbn [negb].
    destruct (dict_get (lit "target_hosted_zone_name") items) as [zone_name|] eqn:Hz;
      [|now apply dict_get_none in Hz].
    destruct (dict_get (lit "target_record_set_name") items) as [record_name|] eqn:Hn;
      [|now apply dict_get_none in Hn].
    eexists. repeat split.
Qed.

Lemma load_record_info_outcome_witness :
  load_record_info_from (Return config_with_typo) = Raise TypeError
  /\ exists o,
       load_record_info_from (Return config_minimal) = Return o
       /\ annotated o = Some example_record_info.
Proof.
  split.
  - apply (proj1 (proj2 (proj2 (load_record_info_outcome (Return config_with_typo))))
             _ eq_refl).
    left. exists (lit "target_record_set_tll"). split.
    + cbn. tauto.
    + cbn. intros [H|[H|[H|[H|[]]]]]; discriminate.
  - destruct (proj2 (proj2 (proj2 (load_record_info_outcome (Return config_minimal))))
                _ eq_refl)
      as (o & Ho & _).
    + intros key [<-|[<-|[]]]; cbn; tauto.
    + cbn. tauto.
    + cbn. tauto.
    + exists o. split; [exact Ho|].
      cbn in Ho. inversion Ho. reflexivity.
Defined.

(** ** Decimal digits of other scripts *)

Lemma decimal_in_bound (runs : list N) (c : char) (d : N) :
  decimal_in runs c = Some d -> d <= 9.
Proof.
  induction runs as [|lo runs IH]; cbn [decimal_in]; [discriminate|].
  unfold in_range. destruct ((lo <=? c) && (c <=? lo + 9)) eqn:Hin; [|exact IH].
  intros H. inversion H; subst. apply andb_prop in Hin as [H1 H2].
  apply N.leb_le in H1, H2. lia.
Qed.

Lemma int_digit_bound (c : char) (d : N) : int_digit c = Some d -> d <= 9.
Proof.
  unfold int_digit, in_range. destruct (c <? 127).
  - destruct ((48 <=? c) && (c <=? 57)) eqn:Hin; [|discriminate].
    intros H. inversion H; subst. apply andb_prop in Hin as [H1 H2].
    apply N.leb_le in H1, H2. lia.
  - destruct (Py_UNICODE_ISSPACE c); [discriminate|]. apply decimal_in_bound.
Qed.

(** What the folding of a digit from outside ASCII gives: the ASCII digit
    of the same value. *)
Lemma ascii_digit_of_digit (c : char) (d : N) :
  (c <? 127) = false -> int_digit c = Some d ->
  ascii_digit_of c = 0x30 + d /\ (0x30 + d <? 127) = true
  /\ is_ascii_digit (0x30 + d) = true.
Proof.
  intros Hc Hd. pose proof (int_digit_bound c d Hd) as Hbound.
  unfold ascii_digit_of. rewrite Hc, Hd. split; [reflexivity|]. split.
  - apply N.ltb_lt. lia.
  - unfold is_ascii_digit, in_range. apply andb_true_intro.
    split; apply N.leb_le; lia.
Qed.

Lemma int_digit_fold (c : char) : int_digit (ascii_digit_of c) = int_digit c.
Proof.
  destruct (c <? 127) eqn:Hc; [unfold ascii_digit_of; now rewrite Hc|].
  destruct (int_digit c) as [d|] eqn:Hd;
    [|unfold ascii_digit_of; now rewrite Hc, Hd].
  destruct (ascii_digit_of_digit c d Hc Hd) as (-> & Hlt & Hdig).
  unfold int_digit. rewrite Hlt. unfold is_ascii_digit in Hdig. rewrite Hdig.
  f_equal. lia.
Qed.

Lemma ascii_digit_plain (x : char) :
  (x <? 127) = true -> is_ascii_digit x = true ->
  Py_UNICODE_ISSPACE x = false /\ int_isspace x = false
  /\ (x =? dot) = false /\ (x =? plus_sign) = false
  /\ (x =? minus_sign) = false /\ (x =? underscore) = false.
Proof.
  intros Hx Hd.
  pose proof (ascii_forall
    (fun x => implb (is_ascii_digit x)
                (negb (Py_UNICODE_ISSPACE x || int_isspace x || (x =? dot)
                       || (x =? plus_sign) || (x =? minus_sign)
                       || (x =? underscore))))
    eq_refl x Hx) as HP.
  cbv beta in HP. rewrite Hd in HP. cbn [implb] in HP.
  apply negb_true_iff in HP.
  do 5 (apply orb_false_iff in HP; destruct HP as [HP ?]).
  repeat split; assumption.
Qed.

Lemma digit_plain (c : char) (d : N) :
  int_digit c = Some d ->
  Py_UNICODE_ISSPACE c = false /\ int_isspace c = false
  /\ (c =? dot) = false /\ (c =? plus_sign) = false
  /\ (c =? minus_sign) = false /\ (c =? underscore) = false.
Proof.
  intros Hd. destruct (digit_not_special c d Hd) as (Hp & Hm & Hu & Hdot).
  repeat split; trivial.
  - destruct (Py_UNICODE_ISSPACE c) eqn:Hsp; [|reflexivity].
    apply unicode_space_not_digit in Hsp. congruence.
  - now apply digit_not_int_space in Hd.
Qed.

(** Folding keeps what the validator looks at in a character. *)
Lemma fold_keeps_class (c : char) :
  Py_UNICODE_ISSPACE (ascii_digit_of c) = Py_UNICODE_ISSPACE c
  /\ int_isspace (ascii_digit_of c) = int_isspace c
  /\ (ascii_digit_of c =? dot) = (c =? dot)
  /\ (ascii_digit_of c =? plus_sign) = (c =? plus_sign)
  /\ (ascii_digit_of c =? minus_sign) = (c =? minus_sign)
  /\ (ascii_digit_of c =? underscore) = (c =? underscore).
Proof.
  destruct (c <? 127) eqn:Hc;
    [unfold ascii_digit_of; rewrite Hc; repeat split|].
  destruct (int_digit c) as [d|] eqn:Hd;
    [|unfold ascii_digit_of; rewrite Hc, Hd; repeat split].
  destruct (ascii_digit_of_digit c d Hc Hd) as (-> & Hlt & Hdig).
  destruct (ascii_digit_plain _ Hlt Hdig) as (-> & -> & -> & -> & -> & ->).
  destruct (digit_plain c d Hd) as (-> & -> & -> & -> & -> & ->).
  repeat split.
Qed.

Lemma lstrip_fold (s : str) :
  lstrip (map ascii_digit_of s) = map ascii_digit_of (lstrip s).
Proof.
  induction s as [|c s IH]; cbn [map lstrip]; [reflexivity|].
  destruct (fold_keeps_class c) as (-> & _).
  destruct (Py_UNICODE_ISSPACE c); [exact IH | reflexivity].
Qed.

Lemma strip_fold (s : str) :
  strip (map ascii_digit_of s) = map ascii_digit_of (strip s).
Proof.
  unfold strip, rstrip.
  now rewrite lstrip_fold, <- map_rev, lstrip_fold, map_rev.
Qed.

Lemma split_fold (s : str) :
  split dot (map ascii_digit_of s) = map (map ascii_digit_of) (split dot s).
Proof.
  induction s as [|c s IH]; cbn [map split]; [reflexivity|].
  destruct (fold_keeps_class c) as (_ & _ & -> & _).
  destruct (c =? dot); rewrite IH; [reflexivity|].
  now destruct (split dot s).
Qed.

Lemma skip_spaces_fold (s : str) :
  skip_spaces (map ascii_digit_of s) = map ascii_digit_of (skip_spaces s).
Proof.
  induction s as [|c s IH]; cbn [map skip_spaces]; [reflexivity|].
  destruct (fold_keeps_class c) as (_ & -> & _).
  destruct (int_isspace c); [exact IH | reflexivity].
Qed.

Lemma scan_digits_fold (s : str) :
  forall p acc n,
    scan_digits (map ascii_digit_of s) p acc n
    = match scan_digits s p acc n with
      | Some (v, n', rest) => Some (v, n', map ascii_digit_of rest)
      | None => None
      end.
Proof.
  induction s as [|c s IH]; cbn [map scan_digits]; intros p acc n.
  - now destruct p.
  - destruct (fold_keeps_class c) as (_ & _ & _ & _ & _ & ->).
    rewrite int_digit_fold.
    destruct (c =? underscore).
    + destruct p; [reflexivity | apply IH].
    + destruct (int_digit c); [apply IH|]. now destruct p.
Qed.

Lemma split_sign_fold (s : str) :
  split_sign (map ascii_digit_of s)
  = (fst (split_sign s), map ascii_digit_of (snd (split_sign s))).
Proof.
  destruct s as [|c s]; cbn [map split_sign]; [reflexivity|].
  destruct (fold_keeps_class c) as (_ & _ & _ & -> & -> & _).
  destruct (c =? plus_sign); [reflexivity|].
  now destruct (c =? minus_sign).
Qed.

(** [int] reads a digit of any script as the ASCII digit of its value. *)
Lemma py_int_fold (s : str) : py_int (map ascii_digit_of s) = py_int s.
Proof.
  rewrite !py_int_read_signed, skip_spaces_fold.
  generalize (skip_spaces s) as t. intros t.
  unfold read_signed. rewrite split_sign_fold.
  destruct (split_sign t) as [negative body]. cbn [fst snd].
  destruct body as [|c body]; [reflexivity|].
  change (map ascii_digit_of (c :: body))
    with (ascii_digit_of c :: map ascii_digit_of body) at 1.
  cbv iota.
  destruct (fold_keeps_class c) as (_ & _ & _ & _ & _ & ->).
  destruct (c =? underscore); [reflexivity|].
  rewrite scan_digits_fold.
  destruct (scan_digits (c :: body) false 0%Z 0) as [[[v n] rest]|]; [|reflexivity].
  destruct (n =? 0); [reflexivity|].
  destruct (int_max_str_digits <? n); [reflexivity|].
  rewrite skip_spaces_fold. now destruct (skip_spaces rest).
Qed.

Lemma segments_fold (segs : list str) :
  forallb segment_ok (map (map ascii_digit_of) segs) = forallb segment_ok segs
  /\ map segment_value (map (map ascii_digit_of) segs) = map segment_value segs.
Proof.
  induction segs as [|seg segs [IHok IHval]]; cbn [map forallb]; [auto|].
  rewrite IHok, IHval. unfold segment_ok, segment_value.
  now rewrite py_int_fold.
Qed.

(** X17: the validator reads decimal digits of any script: it accepts an
    address written with digits from outside ASCII (Arabic-Indic,
    full-width, ...) exactly when it accepts the same address with each such
    digit replaced by the ASCII digit of its value, and returns the same
    result, which is in ASCII digits. *)
Theorem validate_reads_digits_of_any_script (raw_ip_v4 r : str) :
  _validate_ip_v4 (map ascii_digit_of raw_ip_v4) = Return r
  <-> _validate_ip_v4 raw_ip_v4 = Return r.
Proof.
  assert (Hsplit : split dot (strip (map ascii_digit_of raw_ip_v4))
                   = map (map ascii_digit_of) (split dot (strip raw_ip_v4)))
    by now rewrite strip_fold, split_fold.
  destruct (segments_fold (split dot (strip raw_ip_v4))) as [Hok Hval].
  split; intros H; apply validate_return in H as Hret; destruct Hret as [Hlen Hall].
  - rewrite Hsplit, length_map in Hlen. rewrite Hsplit, Hok in Hall.
    rewrite validate_success in H by (rewrite Hsplit; now rewrite ?length_map, ?Hok).
    rewrite Hsplit, Hval in H. now rewrite validate_success.
  - rewrite validate_success in H by assumption.
    rewrite validate_success by (rewrite Hsplit; now rewrite ?length_map, ?Hok).
    now rewrite Hsplit, Hval.
Qed.

Lemma validate_reads_digits_of_any_script_witness :
  _validate_ip_v4 [0x661; 0x660; dot; 0xff10; dot; 0x966; dot; 0x1d7d9]
  = Return (lit "10.0.0.1").
Proof.
  apply (proj1 (validate_reads_digits_of_any_script
                  [0x661; 0x660; dot; 0xff10; dot; 0x966; dot; 0x1d7d9]
                  (lit "10.0.0.1"))).
  reflexivity.
Defined.

(** ** The literals that [int] reads *)

Lemma is_digit_of_digit (c : char) (d : N) : int_digit c = Some d -> is_digit c = true.
Proof. unfold is_digit. now intros ->. Qed.

Lemma is_digit_underscore (c : char) : (c =? underscore) = true -> is_digit c = false.
Proof. intros H. apply N.eqb_eq in H. now subst c. Qed.

Lemma digit_count_cons (c : char) (s : str) :
  digit_count (c :: s) = ((if is_digit c then 1 else 0) + digit_count s)%nat.
Proof. unfold digit_count. cbn [filter]. now destruct (is_digit c). Qed.

(** The digit scan counts the digits it reads. *)
Lemma scan_digits_count (s : str) :
  forall p acc n v n',
    scan_digits s p acc n = Some (v, n', []) ->
    n' = n + N.of_nat (digit_count s).
Proof.
  induction s as [|c s IH]; cbn [scan_digits]; intros p acc n v n' H.
  - destruct p; [discriminate|]. inversion H; subst. cbn. lia.
  - rewrite digit_count_cons. destruct (c =? underscore) eqn:Hu.
    + destruct p; [discriminate|]. apply IH in H.
      now rewrite (is_digit_underscore c Hu).
    + destruct (int_digit c) as [d|] eqn:Hd; [|destruct p; discriminate].
      apply IH in H. rewrite (is_digit_of_digit c d Hd). lia.
Qed.

(** What the digit scan reads to the end is a run of digits, but for what
    it may meet at its start: nothing, or an underscore. *)
Lemma scan_digits_run (s : str) :
  forall p acc n v n',
    scan_digits s p acc n = Some (v, n', []) ->
    if p then digit_run s
    else s = [] \/ digit_run s \/ exists tl, s = underscore :: tl /\ digit_run tl.
Proof.
  induction s as [|c s IH]; cbn [scan_digits]; intros p acc n v n' H.
  - destruct p; [discriminate|]. now left.
  - destruct (c =? underscore) eqn:Hu.
    + destruct p; [discriminate|]. apply IH in H. cbv iota in H.
      apply N.eqb_eq in Hu. subst c. right. right. now exists s.
    + destruct (int_digit c) as [d|] eqn:Hd; [|destruct p; discriminate].
      apply IH in H. cbv iota in H.
      assert (Hrun : digit_run (c :: s)).
      { destruct H as [->|[H|(tl & -> & H)]].
        - now apply (digit_run_one c d).
        - now apply (digit_run_digit c d).
        - now apply (digit_run_underscore c d). }
      destruct p; [exact Hrun | now right; left].
Qed.

(** The digit scan reads a run of digits to its end. *)
Lemma digit_run_scan (s : str) :
  digit_run s ->
  forall p acc n,
    exists v, scan_digits s p acc n = Some (v, n + N.of_nat (digit_count s), []).
Proof.
  induction 1 as [c d Hd|c d s Hd Hrun IH|c d s Hd Hrun IH]; intros p acc n;
    destruct (digit_not_special c d Hd) as (_ & _ & Hu & _);
    cbn [scan_digits]; rewrite Hu, Hd.
  - eexists. rewrite digit_count_cons, (is_digit_of_digit c d Hd).
    cbn [scan_digits]. reflexivity.
  - destruct (IH false (10 * acc + Z.of_N d)%Z (n + 1)) as [v Hv].
    exists v. rewrite Hv, digit_count_cons, (is_digit_of_digit c d Hd).
    replace (n + N.of_nat (1 + digit_count s)) with (n + 1 + N.of_nat (digit_count s))
      by lia.
    reflexivity.
  - cbn [scan_digits]. rewrite N.eqb_refl.
    destruct (IH true (10 * acc + Z.of_N d)%Z (n + 1)) as [v Hv].
    exists v. rewrite Hv, !digit_count_cons, (is_digit_of_digit c d Hd).
    rewrite (is_digit_underscore underscore (N.eqb_refl _)).
    replace (n + N.of_nat (1 + (0 + digit_count s)))
      with (n + 1 + N.of_nat (digit_count s)) by lia.
    reflexivity.
Qed.

Lemma digit_run_head (s : str) :
  digit_run s -> exists c d tl, s = c :: tl /\ int_digit c = Some d.
Proof. intros []; eauto. Qed.

(** [int] reads every literal. *)
Lemma int_literal_reads (seg : str) :
  int_literal seg -> exists v, py_int seg = inr v.
Proof.
  intros (w1 & sign & body & w2 & -> & Hw1 & Hw2 & Hsign & Hrun & Hcount).
  destruct (digit_run_head body Hrun) as (c & d & tl & -> & Hd).
  assert (Hbody : exists v, py_int (c :: tl) = inr v).
  { destruct (digit_not_special c d Hd) as (Hp & Hm & Hu & _).
    unfold py_int. rewrite (skip_spaces_digit c d tl Hd).
    unfold split_sign. rewrite Hp, Hm, Hu.
    destruct (digit_run_scan _ Hrun false 0%Z 0) as [v Hv]. rewrite Hv.
    rewrite digit_count_cons, (is_digit_of_digit c d Hd) in *.
    replace (0 + N.of_nat (1 + digit_count tl) =? 0) with false
      by (symmetry; apply N.eqb_neq; lia).
    replace (int_max_str_digits <? 0 + N.of_nat (1 + digit_count tl)) with false
      by (symmetry; apply N.ltb_ge; lia).
    cbn [skip_spaces]. now exists v. }
  destruct Hbody as [v Hv].
  destruct (py_int_signed c d tl v Hd Hv) as [Hplus Hminus].
  destruct Hsign as [-> | [-> | ->]].
  - exists v. exact (py_int_padded w1 (c :: tl) w2 v Hw1 Hw2 Hv).
  - exists v. exact (py_int_padded w1 (plus_sign :: c :: tl) w2 v Hw1 Hw2 Hplus).
  - exists (- v)%Z.
    exact (py_int_padded w1 (minus_sign :: c :: tl) w2 _ Hw1 Hw2 Hminus).
Qed.

(** [int] reads nothing but literals. *)
Lemma py_int_is_literal (seg : str) (v : Z) :
  py_int seg = inr v -> int_literal seg.
Proof.
  intros H. rewrite py_int_read_signed in H.
  destruct (skip_spaces_prefix seg) as (w1 & Hseg & Hw1).
  unfold read_signed in H.
  destruct (split_sign (skip_spaces seg)) as [negative body] eqn:Hsign.
  destruct body as [|b body]; [discriminate|].
  destruct (b =? underscore) eqn:Hu; [discriminate|].
  destruct (scan_digits (b :: body) false 0%Z 0) as [[[v' n] rest]|] eqn:Hscan;
    [|discriminate].
  destruct (n =? 0) eqn:Hn; [discriminate|].
  destruct (int_max_str_digits <? n) eqn:Hmax; [discriminate|].
  destruct (skip_spaces rest) eqn:Hrest; [|discriminate].
  apply skip_spaces_nil in Hrest.
  apply scan_digits_stop in Hscan as (_ & ds & Hds & Hread).
  specialize (Hread [] I). rewrite app_nil_r in Hread.
  pose proof (scan_digits_count _ _ _ _ _ _ Hread) as Hcount.
  pose proof (scan_digits_run _ _ _ _ _ _ Hread) as Hrun. cbv iota in Hrun.
  assert (Hds_run : digit_run ds).
  { destruct Hrun as [->|[Hrun|(tl & -> & _)]]; [|exact Hrun|].
    - cbn in Hread. inversion Hread; subst. now rewrite N.eqb_refl in Hn.
    - cbn [app] in Hds. inversion Hds; subst. now rewrite N.eqb_refl in Hu. }
  assert (Hlimit : N.of_nat (digit_count ds) <= int_max_str_digits).
  { apply N.ltb_ge in Hmax. lia. }
  assert (Hblank : int_blank rest = true) by exact Hrest.
  apply split_sign_inv in Hsign
    as [(Ht & _ & _)|[(Ht & _)|(Ht & _)]]; rewrite Ht, Hds in Hseg.
  - exists w1, [], ds, rest. repeat split; trivial. now left.
  - exists w1, [plus_sign], ds, rest. repeat split; trivial. right. now left.
  - exists w1, [minus_sign], ds, rest. repeat split; trivial. right. now right.
Qed.


